(** * fakestun: a shallow embedding of [fakestun.py]

    The program answers STUN Binding Requests with a Binding Response whose
    attributes come from static configuration or from the observed sender.
    Python integers are modelled as [Z], [bytes] objects as [list byte],
    [str] objects as lists of Unicode code points, [None] as [option], and
    raised exceptions as the [Raise] alternative of [result]. *)

From Stdlib Require Import String Ascii ZArith NArith List Bool Lia.
From Stdlib Require Import Strings.Byte.
Import ListNotations.

Local Open Scope Z_scope.

(** ** Exceptions and results *)

Inductive exn : Type :=
| OverflowError        (* int.to_bytes: negative, or too big for the width *)
| AddressValueError    (* ipaddress.IPv4Address: malformed address string *)
| UnicodeEncodeError   (* str.encode: lone surrogate *)
| AttributeError       (* None.to_bytes *)
| TypeError.           (* bytes + None *)

Inductive result (A : Type) : Type :=
| Ok (a : A)
| Raise (e : exn).
Arguments Ok {A} a.
Arguments Raise {A} e.

Definition bind {A B : Type} (r : result A) (k : A -> result B) : result B :=
  match r with
  | Ok a => k a
  | Raise e => Raise e
  end.

Notation "x <- r ;; k" := (bind r (fun x => k))
  (at level 61, r at next level, right associativity).

(** ** Python values *)

Definition bytes := list byte.

(** A Python [str]: a sequence of Unicode code points. *)
Definition str := list N.

Definition str_of_string (s : string) : str :=
  map N_of_ascii (list_ascii_of_string s).

(** [len(x)] *)
Definition len {A : Type} (l : list A) : Z := Z.of_nat (length l).

(** [x[i:j]] for literal non-negative bounds; never raises. *)
Definition slice {A : Type} (i j : nat) (l : list A) : list A :=
  firstn (j - i) (skipn i l).

Definition byte_of_Z (z : Z) : byte :=
  match Byte.of_N (Z.to_N (z mod 256)) with
  | Some b => b
  | None => x00
  end.

Definition byte_of_N (n : N) : byte :=
  match Byte.of_N (n mod 256) with
  | Some b => b
  | None => x00
  end.

Definition bytes_eqb (a b : bytes) : bool :=
  if list_eq_dec Byte.byte_eq_dec a b then true else false.

Definition str_eqb (a b : str) : bool :=
  if list_eq_dec N.eq_dec a b then true else false.

(** ** Integer encoders *)

(** The [width] low-order base-256 digits of [n], most significant first. *)
Fixpoint big_endian (width : nat) (n : Z) : bytes :=
  match width with
  | O => []
  | S w => big_endian w (n / 256) ++ [byte_of_Z (n mod 256)]
  end.

(** [number.to_bytes(width, byteorder = 'big', signed = False)] *)
Definition to_bytes (number : Z) (width : nat) : result bytes :=
  if number <? 0 then Raise OverflowError
  else if 2 ^ (8 * Z.of_nat width) <=? number then Raise OverflowError
  else Ok (big_endian width number).

Definition UInt8ToBytes (number : Z) : result bytes := to_bytes number 1.
Definition UInt16ToBytes (number : Z) : result bytes := to_bytes number 2.
Definition UInt32ToBytes (number : Z) : result bytes := to_bytes number 4.

(** ** [str.encode("utf-8")] *)

Definition utf8_char (c : N) : result bytes :=
  (if c <? 0x80 then Ok [byte_of_N c]
   else if c <? 0x800 then
     Ok [byte_of_N (0xC0 + c / 64); byte_of_N (0x80 + c mod 64)]
   else if c <? 0x10000 then
     if (0xD800 <=? c) && (c <=? 0xDFFF) then Raise UnicodeEncodeError
     else Ok [byte_of_N (0xE0 + c / 4096);
              byte_of_N (0x80 + (c / 64) mod 64);
              byte_of_N (0x80 + c mod 64)]
   else
     Ok [byte_of_N (0xF0 + c / 262144);
         byte_of_N (0x80 + (c / 4096) mod 64);
         byte_of_N (0x80 + (c / 64) mod 64);
         byte_of_N (0x80 + c mod 64)])%N.

Fixpoint encode_utf8 (s : str) : result bytes :=
  match s with
  | [] => Ok []
  | c :: s' =>
      b <- utf8_char c ;;
      bs <- encode_utf8 s' ;;
      Ok (b ++ bs)
  end.

(** ** [ipaddress.IPv4Address(s).packed] on a [str] argument

    The standard library splits the string on ['.'], wants exactly four
    octets, and parses each with [_parse_octet]: non-empty, ASCII decimal
    digits only, at most three characters, no leading zero unless the octet
    is ["0"], value at most 255.  Every failure is an [AddressValueError]. *)

Definition dot : N := 46.

Definition is_ascii_digit (c : N) : bool := ((48 <=? c) && (c <=? 57))%N.

(** [s.split('.')] *)
Fixpoint split_dots (s : str) : list str :=
  match s with
  | [] => [[]]
  | c :: s' =>
      if (c =? dot)%N then [] :: split_dots s'
      else match split_dots s' with
           | [] => [[c]]
           | w :: ws => (c :: w) :: ws
           end
  end.

(** [int(octet_str, 10)] on a string of ASCII digits. *)
Definition int_of_digits (s : str) : N :=
  fold_left (fun acc c => (10 * acc + (c - 48))%N) s 0%N.

Definition _parse_octet (octet_str : str) : result N :=
  match octet_str with
  | [] => Raise AddressValueError
  | c0 :: _ =>
      if negb (forallb is_ascii_digit octet_str) then Raise AddressValueError
      else if (3 <? length octet_str)%nat then Raise AddressValueError
      else if negb (str_eqb octet_str [48%N]) && (c0 =? 48)%N
           then Raise AddressValueError
      else
        let octet_int := int_of_digits octet_str in
        if (255 <? octet_int)%N then Raise AddressValueError
        else Ok octet_int
  end.

Fixpoint parse_octets (octets : list str) : result bytes :=
  match octets with
  | [] => Ok []
  | o :: os =>
      n <- _parse_octet o ;;
      ns <- parse_octets os ;;
      Ok (byte_of_N n :: ns)
  end.

Definition IPv4Address_packed (address : str) : result bytes :=
  match address with
  | [] => Raise AddressValueError
  | _ =>
      let octets := split_dots address in
      if negb (length octets =? 4)%nat then Raise AddressValueError
      else parse_octets octets
  end.

(** ** Attributes *)

Definition TYPE_MAPPED_ADDRESS : Z := 1.
Definition TYPE_SOURCE_ADDRESS : Z := 4.
Definition TYPE_CHANGED_ADDRESS : Z := 5.
Definition TYPE_SERVER : Z := 32802.

(** The two subclasses of [Attribute]; [ip] and [port] may hold [None]. *)
Inductive Attribute : Type :=
| IPv4AddressAndPortAttribute (attributeType : Z)
    (ip : option bytes) (port : option Z)
| TextAttribute (attributeType : Z) (text : str).

Definition attributeType_of (a : Attribute) : Z :=
  match a with
  | IPv4AddressAndPortAttribute t _ _ => t
  | TextAttribute t _ => t
  end.

Definition getAttributeValue (a : Attribute) : result bytes :=
  match a with
  | IPv4AddressAndPortAttribute _ ip port =>
      protocolIPv4 <- UInt16ToBytes 1 ;;
      port' <- match port with
               | Some p => UInt16ToBytes p
               | None => Raise AttributeError
               end ;;
      match ip with
      | Some ip' => Ok (protocolIPv4 ++ port' ++ ip')
      | None => Raise TypeError
      end
  | TextAttribute _ text =>
      encoded <- encode_utf8 text ;;
      Ok (encoded ++ [x00])
  end.

(** [Attribute.getBinary] *)
Definition Attribute_getBinary (a : Attribute) : result bytes :=
  attributeValue <- getAttributeValue a ;;
  t <- UInt16ToBytes (attributeType_of a) ;;
  l <- UInt16ToBytes (len attributeValue) ;;
  Ok (t ++ l ++ attributeValue).

(** ** Response messages *)

Definition BINDING_RESPONSE : Z := 257.

Record ResponseMessage : Type := mkResponseMessage {
  messageType : Z;
  messageTransactionID : bytes;
  attributes : list Attribute
}.

Definition addAttribute (m : ResponseMessage) (a : Attribute) : ResponseMessage :=
  mkResponseMessage (messageType m) (messageTransactionID m) (attributes m ++ [a]).

(** [b''.join(map(lambda attribute : attribute.getBinary(), attrs))] *)
Fixpoint join_binaries (attrs : list Attribute) : result bytes :=
  match attrs with
  | [] => Ok []
  | a :: rest =>
      b <- Attribute_getBinary a ;;
      bs <- join_binaries rest ;;
      Ok (b ++ bs)
  end.

(** [ResponseMessage.getBinary] *)
Definition getBinary (m : ResponseMessage) : result bytes :=
  attributesBinary <- join_binaries (attributes m) ;;
  t <- UInt16ToBytes (messageType m) ;;
  l <- UInt16ToBytes (len attributesBinary) ;;
  Ok (t ++ l ++ messageTransactionID m ++ attributesBinary).

(** ** Configuration resolution *)

Definition getConfigurationIpAndPort (ip : str) (port : Z)
    (defaultIP : option bytes) (defaultPort : option Z)
  : result (option bytes * option Z * bool) :=
  ipr <- match ip with
         | _ :: _ => packed <- IPv4Address_packed ip ;; Ok (Some packed, true)
         | [] => Ok (defaultIP, false)
         end ;;
  let '(ip', bothConfigured) := ipr in
  if port <? 0 then Ok (ip', defaultPort, false)
  else Ok (ip', Some port, bothConfigured).

(** ** Configuration *)

(** The module-level constants of the configuration block. *)
Record Config : Type := mkConfig {
  LISTEN_IP : str;
  LISTEN_PORT : Z;
  RESPONSE_MAPPED_IP : str;
  RESPONSE_MAPPED_PORT : Z;
  RESPONSE_SOURCE_IP : str;
  RESPONSE_SOURCE_PORT : Z;
  RESPONSE_CHANGED_IP : str;
  RESPONSE_CHANGED_PORT : Z
}.

(** ** The server *)

(** Address of a UDP peer: [(host, port)]. *)
Definition address : Type := (str * Z)%type.

(** What the server does to the outside world. *)
Inductive event : Type :=
| Print (msg : string)
| SendTo (payload : bytes) (dest : address).

Definition SERVER_TEXT : str :=
  str_of_string "Fake response with static hard-coded IP address".

(** The response object assembled in the body of the [if] of [startServer]. *)
Definition buildResponse (cfg : Config) (listenIpPacked : bytes)
    (data : bytes) (addr : address) : result ResponseMessage :=
  let response := mkResponseMessage BINDING_RESPONSE (slice 4 20 data) [] in
  (* MAPPED-ADDRESS attribute *)
  senderPacked <- IPv4Address_packed (fst addr) ;;
  mapped <- getConfigurationIpAndPort
              (RESPONSE_MAPPED_IP cfg) (RESPONSE_MAPPED_PORT cfg)
              (Some senderPacked) (Some (snd addr)) ;;
  let '(mappedIp, mappedPort, _) := mapped in
  let response := addAttribute response
    (IPv4AddressAndPortAttribute TYPE_MAPPED_ADDRESS mappedIp mappedPort) in
  (* SOURCE-ADDRESS attribute *)
  source <- getConfigurationIpAndPort
              (RESPONSE_SOURCE_IP cfg) (RESPONSE_SOURCE_PORT cfg)
              (Some listenIpPacked) (Some (LISTEN_PORT cfg)) ;;
  let '(sourceIp, sourcePort, _) := source in
  let response := addAttribute response
    (IPv4AddressAndPortAttribute TYPE_SOURCE_ADDRESS sourceIp sourcePort) in
  (* CHANGED-ADDRESS attribute *)
  changed <- getConfigurationIpAndPort
               (RESPONSE_CHANGED_IP cfg) (RESPONSE_CHANGED_PORT cfg)
               None None ;;
  let '(changedIp, changedPort, changedConfigured) := changed in
  let response :=
    if changedConfigured : bool then
      addAttribute response
        (IPv4AddressAndPortAttribute TYPE_CHANGED_ADDRESS changedIp changedPort)
    else response in
  (* SERVER attribute *)
  let response := addAttribute response (TextAttribute TYPE_SERVER SERVER_TEXT) in
  Ok response.

(** The two lines the loop body prints. *)
Definition RECEIVED_REQUEST : string := "Received request. Sending response.".
Definition NOT_UNDERSTOOD : string :=
  "Received a message that this primitive dummy library does not understand.".

(** The bytes handed to [sock.sendto] for a Binding Request. *)
Definition respond (cfg : Config) (listenIpPacked : bytes)
    (data : bytes) (addr : address) : result bytes :=
  response <- buildResponse cfg listenIpPacked data addr ;;
  getBinary response.

(** One pass through the body of the [while True] loop: the events it
    produces and the exception that leaves the loop, if any. *)
Definition handleDatagram (cfg : Config) (listenIpPacked : bytes)
    (data : bytes) (addr : address) : list event * option exn :=
  match UInt16ToBytes 1 with
  | Raise e => ([], Some e)
  | Ok bindingRequest =>
      if bytes_eqb (slice 0 2 data) bindingRequest then
        match respond cfg listenIpPacked data addr with
        | Ok payload =>
            ([Print RECEIVED_REQUEST; SendTo payload addr], None)
        | Raise e => ([Print RECEIVED_REQUEST], Some e)
        end
      else ([Print NOT_UNDERSTOOD], None)
  end.

(** [sock.recvfrom(bufsize)]: a datagram longer than the buffer is cut. *)
Definition recvfrom (bufsize : nat) (datagram : bytes * address) : bytes * address :=
  (firstn bufsize (fst datagram), snd datagram).

(** The [while True] loop over the datagrams that arrive, in order. *)
Fixpoint serverLoop (cfg : Config) (listenIpPacked : bytes)
    (incoming : list (bytes * address)) : list event * option exn :=
  match incoming with
  | [] => ([], None)
  | datagram :: later =>
      let '(data, addr) := recvfrom 1024 datagram in
      match handleDatagram cfg listenIpPacked data addr with
      | (events, Some e) => (events, Some e)
      | (events, None) =>
          let '(events', outcome) := serverLoop cfg listenIpPacked later in
          (events ++ events', outcome)
      end
  end.

Definition startServer (cfg : Config) (incoming : list (bytes * address))
  : list event * option exn :=
  match IPv4Address_packed (LISTEN_IP cfg) with
  | Raise e => ([], Some e)
  | Ok listenIpPacked =>
      let '(events, outcome) := serverLoop cfg listenIpPacked incoming in
      (Print "Server started. Waiting for incoming requests." :: events, outcome)
  end.

(** The configuration block as shipped, with the required [LISTEN_IP]
    filled in. *)
Definition shipped_config (listen_ip : str) : Config :=
  mkConfig listen_ip 3478 [] (-1) [] (-1) [] (-1).

(** The shipped block with a fixed MAPPED-ADDRESS. *)
Definition fixed_mapping_config (listen_ip mapped_ip : str) (mapped_port : Z)
  : Config :=
  mkConfig listen_ip 3478 mapped_ip mapped_port [] (-1) [] (-1).

(** A Binding Request with an all-zero transaction identifier. *)
Definition zero_request : bytes := [x00; x01; x00; x00] ++ repeat x00 16.

(** ** Reference notions used in the statements *)

(** The bytes of a string of ASCII characters. *)
Definition ascii_bytes (s : string) : bytes :=
  map byte_of_ascii (list_ascii_of_string s).

(** Two bytes, most significant first. *)
Definition be16 (n : Z) : bytes := [byte_of_Z (n / 256); byte_of_Z (n mod 256)].

(** Decimal text of an octet, as [inet_ntoa] prints it. *)
Definition decimal_octet (b : byte) : str :=
  let n := Byte.to_N b in
  (if n <? 10 then [48 + n]
   else if n <? 100 then [48 + n / 10; 48 + n mod 10]
   else [48 + n / 100; 48 + (n / 10) mod 10; 48 + n mod 10])%N.

(** The dotted-decimal text of the IPv4 address [a.b.c.d]. *)
Definition dotted (a b c d : byte) : str :=
  decimal_octet a ++ [dot] ++ decimal_octet b ++ [dot]
    ++ decimal_octet c ++ [dot] ++ decimal_octet d.

(** A string is a well-formed dotted-decimal IPv4 address. *)
Definition dotted_decimal (s : str) : Prop :=
  exists a b c d : byte, s = dotted a b c d.

(** [s.join(parts)] with [s = '.'] *)
Fixpoint join_dots (parts : list str) : str :=
  match parts with
  | [] => []
  | [w] => w
  | w :: ws => w ++ dot :: join_dots ws
  end.

(** A string without the separator. *)
Definition dotless (w : str) : Prop := Forall (fun c => c <> dot) w.

(** A configured address is either left empty or well-formed. *)
Definition ip_setting_ok (ip : str) : Prop := ip = [] \/ dotted_decimal ip.

(** Configurations under which every Binding Request is answered: address
    settings are empty or well-formed, and every port that reaches the wire
    fits in sixteen bits. *)
Record config_ok (cfg : Config) : Prop := {
  listen_port_ok : 0 <= LISTEN_PORT cfg < 65536;
  mapped_ip_ok : ip_setting_ok (RESPONSE_MAPPED_IP cfg);
  mapped_port_ok : RESPONSE_MAPPED_PORT cfg < 65536;
  source_ip_ok : ip_setting_ok (RESPONSE_SOURCE_IP cfg);
  source_port_ok : RESPONSE_SOURCE_PORT cfg < 65536;
  changed_ip_ok : ip_setting_ok (RESPONSE_CHANGED_IP cfg);
  changed_port_ok : RESPONSE_CHANGED_PORT cfg < 65536
}.

(** The first attribute of the message with type code [t], if any. *)
Definition find_attribute (t : Z) (m : ResponseMessage) : option Attribute :=
  find (fun a => attributeType_of a =? t) (attributes m).

(** Code points that have no UTF-8 encoding. *)
Definition is_surrogate (c : N) : bool := ((0xD800 <=? c) && (c <=? 0xDFFF))%N.

(** [int.from_bytes(b, byteorder = 'big')]: what a reader of the wire
    format makes of a big-endian field. *)
Definition from_bytes (b : bytes) : Z :=
  fold_left (fun acc x => 256 * acc + Z.of_N (Byte.to_N x)) b 0.




(** Attributes that hold what their serialization reads: an address and a
    port rather than [None], or a text that can be encoded. *)
Definition well_formed_attribute (a : Attribute) : Prop :=
  match a with
  | IPv4AddressAndPortAttribute _ (Some ip) (Some _) => length ip = 4%nat
  | IPv4AddressAndPortAttribute _ _ _ => False
  | TextAttribute _ text => exists b, encode_utf8 text = Ok b
  end.

(** Reading a run of type-length-value attributes back, as a client does;
    [None] when the bytes do not divide into whole attributes. *)
Fixpoint parse_attributes (fuel : nat) (b : bytes) : option (list (Z * bytes)) :=
  match fuel with
  | O => match b with [] => Some [] | _ => None end
  | S fuel' =>
      match b with
      | [] => Some []
      | t1 :: t2 :: l1 :: l2 :: rest =>
          let n := Z.to_nat (from_bytes [l1; l2]) in
          if (length rest <? n)%nat then None
          else match parse_attributes fuel' (skipn n rest) with
               | Some tlvs =>
                   Some ((from_bytes [t1; t2], firstn n rest) :: tlvs)
               | None => None
               end
      | _ => None
      end
  end.

(** * Properties *)

(** ** The result monad *)

Lemma bind_Ok {A B : Type} (r : result A) (k : A -> result B) (b : B) :
  bind r k = Ok b -> exists a, r = Ok a /\ k a = Ok b.
Proof.
  destruct r as [a|e]; simpl; intros H.
  - exists a; split; [reflexivity | exact H].
  - discriminate H.
Qed.

Ltac bind_inv H :=
  let a := fresh "v" in
  let Ha := fresh "E" in
  apply bind_Ok in H; destruct H as [a [Ha H]].

(** ** Integer encoders *)

Lemma UInt16ToBytes_ok (n : Z) :
  0 <= n < 65536 -> UInt16ToBytes n = Ok (be16 n).
Proof.
  intros [Hlo Hhi]. unfold UInt16ToBytes, to_bytes.
  destruct (n <? 0) eqn:Hneg; [apply Z.ltb_lt in Hneg; lia|].
  change (2 ^ (8 * Z.of_nat 2)) with 65536.
  destruct (65536 <=? n) eqn:Hbig; [apply Z.leb_le in Hbig; lia|].
  unfold be16; simpl. do 3 f_equal.
  apply Z.mod_small. split.
  - apply Z.div_pos; lia.
  - apply Z.div_lt_upper_bound; lia.
Qed.

Lemma UInt16ToBytes_overflow (n : Z) :
  n < 0 \/ 65536 <= n -> UInt16ToBytes n = Raise OverflowError.
Proof.
  intros H. unfold UInt16ToBytes, to_bytes.
  destruct (n <? 0) eqn:Hneg; [reflexivity|].
  apply Z.ltb_ge in Hneg.
  change (2 ^ (8 * Z.of_nat 2)) with 65536.
  destruct (65536 <=? n) eqn:Hbig; [reflexivity|].
  apply Z.leb_gt in Hbig. lia.
Qed.

Lemma UInt16ToBytes_inv (n : Z) (b : bytes) :
  UInt16ToBytes n = Ok b -> 0 <= n < 65536 /\ b = be16 n.
Proof.
  intros H.
  destruct (Z_lt_dec n 0) as [Hn|Hn];
    [rewrite UInt16ToBytes_overflow in H by lia; discriminate|].
  destruct (Z_le_dec 65536 n) as [Hb|Hb];
    [rewrite UInt16ToBytes_overflow in H by lia; discriminate|].
  rewrite UInt16ToBytes_ok in H by lia.
  inversion H; subst; split; [lia | reflexivity].
Qed.

Lemma be16_length (n : Z) : length (be16 n) = 2%nat.
Proof. reflexivity. Qed.

Lemma len_app {A : Type} (l1 l2 : list A) : len (l1 ++ l2) = len l1 + len l2.
Proof. unfold len. rewrite length_app. lia. Qed.

Lemma len_nonneg {A : Type} (l : list A) : 0 <= len l.
Proof. unfold len. lia. Qed.

(** ** Dotted-decimal addresses *)

Section DottedDecimal.

Lemma split_dots_nonempty (s : str) : split_dots s <> [].
Proof.
  destruct s as [|c s]; simpl; [discriminate|].
  destruct (N.eqb c dot); [discriminate|].
  destruct (split_dots s); discriminate.
Qed.

Lemma split_dots_dotless (w : str) : dotless w -> split_dots w = [w].
Proof.
  induction 1 as [|c w Hc _ IH]; simpl; [reflexivity|].
  apply N.eqb_neq in Hc. rewrite Hc, IH. reflexivity.
Qed.

Lemma split_dots_app (w s : str) :
  dotless w -> split_dots (w ++ dot :: s) = w :: split_dots s.
Proof.
  induction 1 as [|c w Hc _ IH]; simpl.
  - reflexivity.
  - apply N.eqb_neq in Hc. rewrite Hc, IH. reflexivity.
Qed.

Lemma join_split_dots (s : str) : join_dots (split_dots s) = s.
Proof.
  induction s as [|c s IH]; simpl; [reflexivity|].
  destruct (N.eqb_spec c dot) as [->|Hc].
  - simpl. destruct (split_dots s) eqn:Hs.
    + exfalso; exact (split_dots_nonempty s Hs).
    + rewrite IH. reflexivity.
  - destruct (split_dots s) as [|w ws] eqn:Hs.
    + exfalso; exact (split_dots_nonempty s Hs).
    + rewrite <- IH. destruct ws; reflexivity.
Qed.

Lemma decimal_octet_dotless (b : byte) : dotless (decimal_octet b).
Proof.
  destruct b; unfold dotless;
    repeat (constructor; [discriminate|]); constructor.
Qed.

Lemma parse_decimal_octet (b : byte) :
  _parse_octet (decimal_octet b) = Ok (Byte.to_N b).
Proof. destruct b; reflexivity. Qed.

Lemma byte_of_to_N (b : byte) : byte_of_N (Byte.to_N b) = b.
Proof. destruct b; reflexivity. Qed.

Lemma dotted_nonempty (a b c d : byte) : dotted a b c d <> [].
Proof.
  unfold dotted. destruct (decimal_octet a) eqn:E; [|discriminate].
  destruct a; discriminate E.
Qed.

(** Parsing undoes printing. *)
Lemma IPv4Address_packed_dotted (a b c d : byte) :
  IPv4Address_packed (dotted a b c d) = Ok [a; b; c; d].
Proof.
  unfold IPv4Address_packed.
  destruct (dotted a b c d) eqn:E; [exfalso; exact (dotted_nonempty _ _ _ _ E)|].
  rewrite <- E; clear E. unfold dotted; simpl app.
  rewrite !split_dots_app by apply decimal_octet_dotless.
  rewrite split_dots_dotless by apply decimal_octet_dotless.
  simpl. rewrite !parse_decimal_octet. simpl.
  rewrite !byte_of_to_N. reflexivity.
Qed.

Lemma is_ascii_digit_cases (c : N) :
  is_ascii_digit c = true ->
  (c = 48 \/ c = 49 \/ c = 50 \/ c = 51 \/ c = 52 \/
   c = 53 \/ c = 54 \/ c = 55 \/ c = 56 \/ c = 57)%N.
Proof.
  unfold is_ascii_digit. intros H.
  apply andb_true_iff in H. destruct H as [H1 H2].
  apply N.leb_le in H1. apply N.leb_le in H2. lia.
Qed.

Lemma parse_octet_shape (o : str) (n : N) :
  _parse_octet o = Ok n ->
  forallb is_ascii_digit o = true /\ (length o <= 3)%nat.
Proof.
  unfold _parse_octet. destruct o as [|c0 o]; [discriminate|].
  destruct (forallb is_ascii_digit (c0 :: o)); [|discriminate].
  destruct (3 <? length (c0 :: o))%nat eqn:Hl; [discriminate|].
  intros _. split; [reflexivity|]. apply Nat.ltb_ge in Hl. exact Hl.
Qed.

Ltac each_digit H :=
  apply is_ascii_digit_cases in H;
  repeat (destruct H as [H|H]); subst.

(** An accepted octet string is the decimal text of the octet it denotes. *)
Lemma parse_octet_sound (o : str) (n : N) :
  _parse_octet o = Ok n -> o = decimal_octet (byte_of_N n).
Proof.
  intros H. destruct (parse_octet_shape o n H) as [Hd Hl].
  destruct o as [|c0 [|c1 [|c2 [|c3 o]]]]; simpl in Hl; try lia.
  - discriminate H.
  - simpl in Hd. rewrite andb_true_r in Hd.
    each_digit Hd; vm_compute in H;
      first [discriminate H | injection H as <-; reflexivity].
  - simpl in Hd. rewrite andb_true_r in Hd.
    apply andb_true_iff in Hd. destruct Hd as [H0 H1].
    each_digit H0; each_digit H1; vm_compute in H;
      first [discriminate H | injection H as <-; reflexivity].
  - simpl in Hd. rewrite andb_true_r in Hd.
    apply andb_true_iff in Hd. destruct Hd as [H0 Hd].
    apply andb_true_iff in Hd. destruct Hd as [H1 H2].
    each_digit H0; each_digit H1; each_digit H2; vm_compute in H;
      first [discriminate H | injection H as <-; reflexivity].
Qed.

Lemma parse_octets_four (o1 o2 o3 o4 : str) (p : bytes) :
  parse_octets [o1; o2; o3; o4] = Ok p ->
  exists n1 n2 n3 n4,
    _parse_octet o1 = Ok n1 /\ _parse_octet o2 = Ok n2 /\
    _parse_octet o3 = Ok n3 /\ _parse_octet o4 = Ok n4 /\
    p = [byte_of_N n1; byte_of_N n2; byte_of_N n3; byte_of_N n4].
Proof.
  simpl. intros H.
  destruct (_parse_octet o1) as [n1|]; [|discriminate].
  destruct (_parse_octet o2) as [n2|]; [|discriminate].
  destruct (_parse_octet o3) as [n3|]; [|discriminate].
  destruct (_parse_octet o4) as [n4|]; [|discriminate].
  simpl in H. injection H as <-.
  exists n1, n2, n3, n4. repeat split.
Qed.

(** Only dotted-decimal text is accepted. *)
Lemma IPv4Address_packed_sound (s : str) (p : bytes) :
  IPv4Address_packed s = Ok p ->
  exists a b c d : byte, s = dotted a b c d /\ p = [a; b; c; d].
Proof.
  unfold IPv4Address_packed. destruct s as [|c0 s']; [discriminate|].
  set (s := c0 :: s'). pose proof (join_split_dots s) as Hj.
  destruct (split_dots s) as [|o1 [|o2 [|o3 [|o4 [|o5 os]]]]];
    try discriminate.
  simpl. intros H.
  destruct (parse_octets_four _ _ _ _ _ H)
    as (n1 & n2 & n3 & n4 & P1 & P2 & P3 & P4 & ->).
  exists (byte_of_N n1), (byte_of_N n2), (byte_of_N n3), (byte_of_N n4).
  split; [|reflexivity].
  rewrite <- Hj. unfold dotted. simpl.
  rewrite <- (parse_octet_sound _ _ P1), <- (parse_octet_sound _ _ P2),
          <- (parse_octet_sound _ _ P3), <- (parse_octet_sound _ _ P4).
  reflexivity.
Qed.

Lemma parse_octet_exn (o : str) (e : exn) :
  _parse_octet o = Raise e -> e = AddressValueError.
Proof.
  unfold _parse_octet. destruct o as [|c0 o]; [congruence|].
  repeat match goal with
         | |- context [if ?b then _ else _] => destruct b
         end; congruence.
Qed.

Lemma parse_octets_exn (os : list str) (e : exn) :
  parse_octets os = Raise e -> e = AddressValueError.
Proof.
  induction os as [|o os IH]; simpl; [discriminate|].
  destruct (_parse_octet o) eqn:Ho; simpl.
  - destruct (parse_octets os); simpl; [discriminate|].
    intros H; injection H as <-. apply IH; reflexivity.
  - intros H; injection H as <-. exact (parse_octet_exn _ _ Ho).
Qed.

(** The only exception the parser raises. *)
Lemma IPv4Address_packed_exn (s : str) (e : exn) :
  IPv4Address_packed s = Raise e -> e = AddressValueError.
Proof.
  unfold IPv4Address_packed. destruct s as [|c0 s']; [congruence|].
  destruct (negb _); [congruence|]. apply parse_octets_exn.
Qed.

Lemma IPv4Address_packed_reject (s : str) :
  ~ dotted_decimal s -> IPv4Address_packed s = Raise AddressValueError.
Proof.
  intros Hn. destruct (IPv4Address_packed s) as [p|e] eqn:E.
  - exfalso. apply Hn.
    destruct (IPv4Address_packed_sound s p E) as (a & b & c & d & Hs & _).
    exists a, b, c, d. exact Hs.
  - f_equal. exact (IPv4Address_packed_exn s e E).
Qed.

End DottedDecimal.

(** ** Attributes *)

Example encode_utf8_ascii :
  encode_utf8 (str_of_string "Fake") = Ok [x46; x61; x6b; x65].
Proof. reflexivity. Qed.

Example encode_utf8_multibyte :
  encode_utf8 [0xE9; 0x20AC; 0x1F600]%N
  = Ok [xc3; xa9; xe2; x82; xac; xf0; x9f; x98; x80].
Proof. reflexivity. Qed.

Example encode_utf8_surrogate :
  encode_utf8 [0x41; 0xD800]%N = Raise UnicodeEncodeError.
Proof. reflexivity. Qed.

Lemma utf8_char_total (c : N) :
  is_surrogate c = false -> exists b, utf8_char c = Ok b.
Proof.
  unfold utf8_char, is_surrogate. intros Hs.
  destruct (c <? 128)%N; [eexists; reflexivity|].
  destruct (c <? 2048)%N; [eexists; reflexivity|].
  destruct (c <? 65536)%N; [|eexists; reflexivity].
  rewrite Hs. eexists; reflexivity.
Qed.

Lemma encode_utf8_total (s : str) :
  forallb (fun c => negb (is_surrogate c)) s = true ->
  exists b, encode_utf8 s = Ok b.
Proof.
  induction s as [|c s IH]; simpl; intros H.
  - exists []; reflexivity.
  - apply andb_true_iff in H. destruct H as [Hc Hs].
    apply negb_true_iff in Hc.
    destruct (utf8_char_total c Hc) as [b ->].
    destruct (IH Hs) as [bs ->]. simpl. eexists; reflexivity.
Qed.

Lemma address_value (t : Z) (ip : bytes) (port : Z) :
  0 <= port < 65536 ->
  getAttributeValue (IPv4AddressAndPortAttribute t (Some ip) (Some port))
  = Ok ([x00; x01] ++ be16 port ++ ip).
Proof.
  intros Hp. simpl. rewrite (UInt16ToBytes_ok port Hp). reflexivity.
Qed.

Lemma Attribute_getBinary_ok (a : Attribute) (payload : bytes) :
  0 <= attributeType_of a < 65536 ->
  getAttributeValue a = Ok payload ->
  len payload < 65536 ->
  Attribute_getBinary a
  = Ok (be16 (attributeType_of a) ++ be16 (len payload) ++ payload).
Proof.
  intros Ht Hv Hl. unfold Attribute_getBinary. rewrite Hv. simpl.
  rewrite (UInt16ToBytes_ok _ Ht). simpl.
  rewrite UInt16ToBytes_ok by (split; [apply len_nonneg | exact Hl]).
  reflexivity.
Qed.

(** An address attribute with a four-byte address takes twelve bytes. *)
Lemma address_binary (t : Z) (a b c d : byte) (port : Z) :
  0 <= t < 65536 -> 0 <= port < 65536 ->
  Attribute_getBinary
    (IPv4AddressAndPortAttribute t (Some [a; b; c; d]) (Some port))
  = Ok (be16 t ++ [x00; x08] ++ [x00; x01] ++ be16 port ++ [a; b; c; d]).
Proof.
  intros Ht Hp.
  rewrite (Attribute_getBinary_ok
             (IPv4AddressAndPortAttribute t (Some [a; b; c; d]) (Some port))
             _ Ht (address_value t _ port Hp));
    [reflexivity | vm_compute; reflexivity].
Qed.

(** ** Messages *)

Lemma fold_addAttribute (attrs : list Attribute) (m : ResponseMessage) :
  fold_left addAttribute attrs m
  = mkResponseMessage (messageType m) (messageTransactionID m)
      (attributes m ++ attrs).
Proof.
  revert m. induction attrs as [|a attrs IH]; intros m; simpl.
  - rewrite app_nil_r. destruct m; reflexivity.
  - rewrite IH. simpl. rewrite <- app_assoc. reflexivity.
Qed.

Lemma join_binaries_concat (attrs : list Attribute) (bins : list bytes) :
  Forall2 (fun a b => Attribute_getBinary a = Ok b) attrs bins ->
  join_binaries attrs = Ok (concat bins).
Proof.
  induction 1 as [|a b attrs bins Hab _ IH]; simpl.
  - reflexivity.
  - rewrite Hab, IH. reflexivity.
Qed.

Lemma join_binaries_app (l1 l2 : list Attribute) (b1 b2 : bytes) :
  join_binaries l1 = Ok b1 -> join_binaries l2 = Ok b2 ->
  join_binaries (l1 ++ l2) = Ok (b1 ++ b2).
Proof.
  revert b1. induction l1 as [|a l1 IH]; simpl; intros b1 H1 H2.
  - injection H1 as <-. exact H2.
  - bind_inv H1. bind_inv H1. injection H1 as <-.
    rewrite E. simpl. rewrite (IH _ E0 H2). simpl.
    rewrite app_assoc. reflexivity.
Qed.

Lemma getBinary_ok (m : ResponseMessage) (attributesBinary : bytes) :
  0 <= messageType m < 65536 ->
  join_binaries (attributes m) = Ok attributesBinary ->
  len attributesBinary < 65536 ->
  getBinary m
  = Ok (be16 (messageType m) ++ be16 (len attributesBinary)
          ++ messageTransactionID m ++ attributesBinary).
Proof.
  intros Ht Hj Hl. unfold getBinary. rewrite Hj. simpl.
  rewrite (UInt16ToBytes_ok _ Ht). simpl.
  rewrite UInt16ToBytes_ok by (split; [apply len_nonneg | exact Hl]).
  reflexivity.
Qed.

(** C3: a message serializes to its 16-bit big-endian type code, the 16-bit
    big-endian byte length of all attribute serializations together, the
    transaction identifier, and the attribute serializations in the order
    in which the attributes were added. *)
Theorem C3_message_serialization
    (ty : Z) (tid : bytes) (attrs : list Attribute) (bins : list bytes) :
  0 <= ty < 65536 ->
  Forall2 (fun a b => Attribute_getBinary a = Ok b) attrs bins ->
  len (concat bins) < 65536 ->
  getBinary (fold_left addAttribute attrs (mkResponseMessage ty tid []))
  = Ok (be16 ty ++ be16 (len (concat bins)) ++ tid ++ concat bins).
Proof.
  intros Ht Hb Hl. rewrite fold_addAttribute. simpl.
  apply (getBinary_ok (mkResponseMessage ty tid attrs) (concat bins) Ht);
    [apply join_binaries_concat; exact Hb | exact Hl].
Qed.

Lemma C3_witness :
  getBinary
    (fold_left addAttribute
       [IPv4AddressAndPortAttribute 1 (Some [xcb; x00; x71; x09]) (Some 54321);
        TextAttribute 32802 (str_of_string "ok")]
       (mkResponseMessage 257 (repeat xaa 16) []))
  = Ok ([x01; x01; x00; x13] ++ repeat xaa 16
          ++ [x00; x01; x00; x08; x00; x01; xd4; x31; xcb; x00; x71; x09]
          ++ [x80; x22; x00; x03; x6f; x6b; x00]).
Proof.
  apply (C3_message_serialization 257 (repeat xaa 16) _
           [[x00; x01; x00; x08; x00; x01; xd4; x31; xcb; x00; x71; x09];
            [x80; x22; x00; x03; x6f; x6b; x00]]).
  - lia.
  - repeat constructor.
  - vm_compute. reflexivity.
Defined.

(** C4: an attribute serializes to its 16-bit big-endian type code, the
    16-bit big-endian byte length of its payload, and the payload; the
    payload of an address-and-port attribute is the family marker 1, the
    16-bit port and the raw address bytes, and the payload of a text
    attribute is the UTF-8 encoding of the text followed by one null byte. *)
Theorem C4_attribute_serialization :
  (forall (a : Attribute) (payload : bytes),
     0 <= attributeType_of a < 65536 ->
     getAttributeValue a = Ok payload ->
     len payload < 65536 ->
     Attribute_getBinary a
     = Ok (be16 (attributeType_of a) ++ be16 (len payload) ++ payload))
  /\ (forall (t : Z) (a b c d : byte) (port : Z),
        0 <= port < 65536 ->
        getAttributeValue
          (IPv4AddressAndPortAttribute t (Some [a; b; c; d]) (Some port))
        = Ok ([x00; x01] ++ be16 port ++ [a; b; c; d]))
  /\ (forall (t : Z) (text : str),
        forallb (fun c => negb (is_surrogate c)) text = true ->
        exists encoded,
          encode_utf8 text = Ok encoded /\
          getAttributeValue (TextAttribute t text) = Ok (encoded ++ [x00])).
Proof.
  split; [|split].
  - exact Attribute_getBinary_ok.
  - intros t a b c d port Hp. exact (address_value t _ port Hp).
  - intros t text Hs. destruct (encode_utf8_total text Hs) as [enc Henc].
    exists enc. split; [exact Henc|]. simpl. rewrite Henc. reflexivity.
Qed.

Lemma C4_witness :
  Attribute_getBinary
    (IPv4AddressAndPortAttribute 1 (Some [xcb; x00; x71; x09]) (Some 54321))
  = Ok [x00; x01; x00; x08; x00; x01; xd4; x31; xcb; x00; x71; x09]
  /\ getAttributeValue
       (IPv4AddressAndPortAttribute 1 (Some [xcb; x00; x71; x09]) (Some 54321))
     = Ok [x00; x01; xd4; x31; xcb; x00; x71; x09]
  /\ exists encoded,
       encode_utf8 [0x6F; 0xE9]%N = Ok encoded /\
       getAttributeValue (TextAttribute 32802 [0x6F; 0xE9]%N)
       = Ok (encoded ++ [x00]).
Proof.
  destruct C4_attribute_serialization as [Hbin [Haddr Htext]].
  split; [|split].
  - apply (Hbin (IPv4AddressAndPortAttribute 1 (Some [xcb; x00; x71; x09])
                   (Some 54321))
             [x00; x01; xd4; x31; xcb; x00; x71; x09]).
    + simpl; lia.
    + reflexivity.
    + vm_compute; reflexivity.
  - apply (Haddr 1 xcb x00 x71 x09 54321). lia.
  - apply (Htext 32802 [0x6F; 0xE9]%N). reflexivity.
Defined.

(** ** Configuration resolution *)

Lemma not_dotted_decimal (s : str) (e : exn) :
  IPv4Address_packed s = Raise e -> ~ dotted_decimal s.
Proof.
  intros H (a & b & c & d & ->).
  rewrite IPv4Address_packed_dotted in H. discriminate H.
Qed.

Lemma resolve_unset (port : Z) (defaultIP : option bytes) (defaultPort : option Z) :
  getConfigurationIpAndPort [] port defaultIP defaultPort
  = Ok (defaultIP, if port <? 0 then defaultPort else Some port, false).
Proof.
  unfold getConfigurationIpAndPort. simpl.
  destruct (port <? 0); reflexivity.
Qed.

Lemma resolve_dotted (a b c d : byte) (port : Z)
    (defaultIP : option bytes) (defaultPort : option Z) :
  getConfigurationIpAndPort (dotted a b c d) port defaultIP defaultPort
  = Ok (Some [a; b; c; d], if port <? 0 then defaultPort else Some port,
        negb (port <? 0)).
Proof.
  unfold getConfigurationIpAndPort.
  destruct (dotted a b c d) eqn:E; [exfalso; exact (dotted_nonempty _ _ _ _ E)|].
  rewrite <- E, IPv4Address_packed_dotted. simpl.
  destruct (port <? 0); reflexivity.
Qed.

Lemma resolve_inv (ip : str) (port : Z)
    (defaultIP : option bytes) (defaultPort : option Z)
    (rip : option bytes) (rport : option Z) (flag : bool) :
  getConfigurationIpAndPort ip port defaultIP defaultPort = Ok (rip, rport, flag) ->
  rport = (if port <? 0 then defaultPort else Some port)
  /\ (flag = true <-> ip <> [] /\ 0 <= port)
  /\ (ip = [] -> rip = defaultIP)
  /\ (ip <> [] -> exists packed, IPv4Address_packed ip = Ok packed /\ rip = Some packed).
Proof.
  unfold getConfigurationIpAndPort. intros H. bind_inv H.
  destruct v as [ip' both].
  assert (Hflag : flag = both && negb (port <? 0)
                  /\ rport = (if port <? 0 then defaultPort else Some port)
                  /\ rip = ip').
  { destruct (port <? 0); injection H as <- <- <-;
      rewrite ?andb_true_r, ?andb_false_r; repeat split. }
  destruct Hflag as (-> & -> & ->). clear H.
  destruct ip as [|c0 ip].
  - injection E as <- <-. simpl. repeat split; try congruence.
    + intros [Hne _]. congruence.
  - bind_inv E. injection E as <- <-. simpl.
    repeat split; try congruence.
    + destruct (Z.ltb_spec port 0); [discriminate | lia].
    + intros [_ Hp]. destruct (Z.ltb_spec port 0); [lia | reflexivity].
    + intros _. exists v. split; [exact E0 | reflexivity].
Qed.

Lemma resolve_total (ip : str) (port : Z)
    (defaultIP : option bytes) (defaultPort : option Z) :
  ip_setting_ok ip ->
  exists rip rport flag,
    getConfigurationIpAndPort ip port defaultIP defaultPort
    = Ok (rip, rport, flag).
Proof.
  intros [-> | (a & b & c & d & ->)].
  - rewrite resolve_unset. do 3 eexists. reflexivity.
  - rewrite resolve_dotted. do 3 eexists. reflexivity.
Qed.

(** C7: a configured address that is non-empty but not a well-formed
    dotted-decimal IPv4 address makes configuration resolution raise the
    address-format exception; the default address is not used. *)
Theorem C7_invalid_address_raises
    (ip : str) (port : Z) (defaultIP : option bytes) (defaultPort : option Z) :
  ip <> [] ->
  ~ dotted_decimal ip ->
  getConfigurationIpAndPort ip port defaultIP defaultPort
  = Raise AddressValueError.
Proof.
  intros Hne Hbad. unfold getConfigurationIpAndPort.
  destruct ip as [|c0 ip]; [congruence|].
  rewrite (IPv4Address_packed_reject _ Hbad). reflexivity.
Qed.

Lemma C7_witness :
  getConfigurationIpAndPort (str_of_string "192.168.1.256") 3478
    (Some [x7f; x00; x00; x01]) (Some 3478)
  = Raise AddressValueError.
Proof.
  apply C7_invalid_address_raises.
  - discriminate.
  - apply (not_dotted_decimal _ AddressValueError). reflexivity.
Defined.

(** C8, as stated: a configured port above 65535 would be replaced by the
    default.  The code keeps it. *)
Lemma C8_counterexample :
  ~ (forall (ip : str) (port : Z) (defaultIP : option bytes)
            (defaultPort : option Z) rip rport flag,
       getConfigurationIpAndPort ip port defaultIP defaultPort
       = Ok (rip, rport, flag) ->
       rport = if (0 <=? port) && (port <=? 65535) then Some port
               else defaultPort).
Proof.
  intros H.
  specialize (H [] 70000 (Some [x7f; x00; x00; x01]) (Some 3478)
                (Some [x7f; x00; x00; x01]) (Some 70000) false eq_refl).
  discriminate H.
Qed.

(** C8, amended: resolution uses the configured port whenever it is
    non-negative, and the supplied default port when it is negative. *)
Theorem C8_port_resolution
    (ip : str) (port : Z) (defaultIP : option bytes) (defaultPort : option Z) :
  ip_setting_ok ip ->
  exists rip rport flag,
    getConfigurationIpAndPort ip port defaultIP defaultPort
    = Ok (rip, rport, flag)
    /\ (0 <= port -> rport = Some port)
    /\ (port < 0 -> rport = defaultPort).
Proof.
  intros [-> | (a & b & c & d & ->)].
  - rewrite resolve_unset. do 3 eexists. split; [reflexivity|].
    destruct (Z.ltb_spec port 0); split; intros; first [reflexivity | lia].
  - rewrite resolve_dotted. do 3 eexists. split; [reflexivity|].
    destruct (Z.ltb_spec port 0); split; intros; first [reflexivity | lia].
Qed.

Lemma C8_witness :
  exists rip rport flag,
    getConfigurationIpAndPort (dotted xc6 x33 x64 x07) 70000
      (Some [x7f; x00; x00; x01]) (Some 3478)
    = Ok (rip, rport, flag)
    /\ (0 <= 70000 -> rport = Some 70000)
    /\ (70000 < 0 -> rport = Some 3478).
Proof.
  apply (C8_port_resolution (dotted xc6 x33 x64 x07) 70000).
  right. exists xc6, x33, x64, x07. reflexivity.
Defined.

(** ** Building the response *)

Lemma buildResponse_inv (cfg : Config) (lip data : bytes) (addr : address)
    (msg : ResponseMessage) :
  buildResponse cfg lip data addr = Ok msg ->
  exists senderPacked mip mport mf sip sport sf cip cport cf,
    IPv4Address_packed (fst addr) = Ok senderPacked
    /\ getConfigurationIpAndPort (RESPONSE_MAPPED_IP cfg)
         (RESPONSE_MAPPED_PORT cfg) (Some senderPacked) (Some (snd addr))
       = Ok (mip, mport, mf)
    /\ getConfigurationIpAndPort (RESPONSE_SOURCE_IP cfg)
         (RESPONSE_SOURCE_PORT cfg) (Some lip) (Some (LISTEN_PORT cfg))
       = Ok (sip, sport, sf)
    /\ getConfigurationIpAndPort (RESPONSE_CHANGED_IP cfg)
         (RESPONSE_CHANGED_PORT cfg) None None
       = Ok (cip, cport, cf)
    /\ msg = mkResponseMessage BINDING_RESPONSE (slice 4 20 data)
               ([IPv4AddressAndPortAttribute TYPE_MAPPED_ADDRESS mip mport;
                 IPv4AddressAndPortAttribute TYPE_SOURCE_ADDRESS sip sport]
                ++ (if cf then
                      [IPv4AddressAndPortAttribute TYPE_CHANGED_ADDRESS cip cport]
                    else [])
                ++ [TextAttribute TYPE_SERVER SERVER_TEXT]).
Proof.
  unfold buildResponse. intros H.
  bind_inv H. bind_inv H. destruct v0 as [[mip mport] mf].
  bind_inv H. destruct v0 as [[sip sport] sf].
  bind_inv H. destruct v0 as [[cip cport] cf].
  injection H as <-.
  exists v, mip, mport, mf, sip, sport, sf, cip, cport, cf.
  repeat (split; [assumption|]).
  destruct cf; reflexivity.
Qed.

Lemma buildResponse_intro (cfg : Config) (lip data : bytes) (addr : address)
    senderPacked mip mport mf sip sport sf cip cport cf :
  IPv4Address_packed (fst addr) = Ok senderPacked ->
  getConfigurationIpAndPort (RESPONSE_MAPPED_IP cfg)
    (RESPONSE_MAPPED_PORT cfg) (Some senderPacked) (Some (snd addr))
  = Ok (mip, mport, mf) ->
  getConfigurationIpAndPort (RESPONSE_SOURCE_IP cfg)
    (RESPONSE_SOURCE_PORT cfg) (Some lip) (Some (LISTEN_PORT cfg))
  = Ok (sip, sport, sf) ->
  getConfigurationIpAndPort (RESPONSE_CHANGED_IP cfg)
    (RESPONSE_CHANGED_PORT cfg) None None
  = Ok (cip, cport, cf) ->
  buildResponse cfg lip data addr
  = Ok (mkResponseMessage BINDING_RESPONSE (slice 4 20 data)
          ([IPv4AddressAndPortAttribute TYPE_MAPPED_ADDRESS mip mport;
            IPv4AddressAndPortAttribute TYPE_SOURCE_ADDRESS sip sport]
           ++ (if cf then
                 [IPv4AddressAndPortAttribute TYPE_CHANGED_ADDRESS cip cport]
               else [])
           ++ [TextAttribute TYPE_SERVER SERVER_TEXT])).
Proof.
  intros Hs Hm Hso Hc. unfold buildResponse.
  rewrite Hs; simpl. rewrite Hm; simpl. rewrite Hso; simpl. rewrite Hc; simpl.
  destruct cf; reflexivity.
Qed.

(** A setting that is empty or well-formed resolves, against defaults that
    are present, to four address bytes and a port. *)
Lemma resolve_with_defaults (ip : str) (port : Z)
    (d0 d1 d2 d3 : byte) (defaultPort : Z) :
  ip_setting_ok ip ->
  exists r0 r1 r2 r3 flag,
    getConfigurationIpAndPort ip port
      (Some [d0; d1; d2; d3]) (Some defaultPort)
    = Ok (Some [r0; r1; r2; r3],
          Some (if port <? 0 then defaultPort else port), flag).
Proof.
  intros [-> | (a & b & c & d & ->)].
  - rewrite resolve_unset. exists d0, d1, d2, d3, false.
    destruct (port <? 0); reflexivity.
  - rewrite resolve_dotted. exists a, b, c, d, (negb (port <? 0)).
    destruct (port <? 0); reflexivity.
Qed.

(** Without defaults, the flag tells whether both parts are present. *)
Lemma resolve_without_defaults (ip : str) (port : Z) :
  ip_setting_ok ip ->
  exists rip rport flag,
    getConfigurationIpAndPort ip port None None = Ok (rip, rport, flag)
    /\ (flag = true ->
        exists r0 r1 r2 r3,
          rip = Some [r0; r1; r2; r3] /\ rport = Some port /\ 0 <= port).
Proof.
  intros [-> | (a & b & c & d & ->)].
  - rewrite resolve_unset. do 3 eexists. split; [reflexivity|]. discriminate.
  - rewrite resolve_dotted. do 3 eexists. split; [reflexivity|].
    destruct (Z.ltb_spec port 0); simpl; [discriminate|].
    intros _. exists a, b, c, d. repeat split. exact H.
Qed.

Lemma server_attribute_binary :
  Attribute_getBinary (TextAttribute TYPE_SERVER SERVER_TEXT)
  = Ok ([x80; x22; x00; x30] ++ ascii_bytes
          "Fake response with static hard-coded IP address" ++ [x00]).
Proof. reflexivity. Qed.

(** Under a sound configuration every Binding Request from a peer with an
    IPv4 address and a 16-bit port is answered, and the answer is the
    header, the bytes 4..19 of the request, and the attributes. *)
Lemma respond_ok (cfg : Config) (l0 l1 l2 l3 : byte) (data : bytes)
    (a b c d : byte) (port : Z) :
  config_ok cfg ->
  0 <= port < 65536 ->
  exists msg attributesBinary,
    buildResponse cfg [l0; l1; l2; l3] data (dotted a b c d, port) = Ok msg
    /\ join_binaries (attributes msg) = Ok attributesBinary
    /\ respond cfg [l0; l1; l2; l3] data (dotted a b c d, port)
       = Ok ([x01; x01] ++ be16 (len attributesBinary)
               ++ slice 4 20 data ++ attributesBinary).
Proof.
  intros [Hlp Hmi Hmp Hsi Hsp Hci Hcp] Hport.
  destruct (resolve_with_defaults (RESPONSE_MAPPED_IP cfg)
              (RESPONSE_MAPPED_PORT cfg) a b c d port Hmi)
    as (m0 & m1 & m2 & m3 & mf & Hm).
  destruct (resolve_with_defaults (RESPONSE_SOURCE_IP cfg)
              (RESPONSE_SOURCE_PORT cfg) l0 l1 l2 l3 (LISTEN_PORT cfg) Hsi)
    as (s0 & s1 & s2 & s3 & sf & Hs).
  destruct (resolve_without_defaults (RESPONSE_CHANGED_IP cfg)
              (RESPONSE_CHANGED_PORT cfg) Hci)
    as (cip & cport & cf & Hc & Hcf).
  pose proof (buildResponse_intro cfg [l0; l1; l2; l3] data
                (dotted a b c d, port) [a; b; c; d] _ _ _ _ _ _ _ _ _
                (IPv4Address_packed_dotted a b c d) Hm Hs Hc) as Hb.
  set (mp := if RESPONSE_MAPPED_PORT cfg <? 0 then port
             else RESPONSE_MAPPED_PORT cfg) in *.
  set (sp := if RESPONSE_SOURCE_PORT cfg <? 0 then LISTEN_PORT cfg
             else RESPONSE_SOURCE_PORT cfg) in *.
  assert (Hmpr : 0 <= mp < 65536)
    by (subst mp; destruct (Z.ltb_spec (RESPONSE_MAPPED_PORT cfg) 0); lia).
  assert (Hspr : 0 <= sp < 65536)
    by (subst sp; destruct (Z.ltb_spec (RESPONSE_SOURCE_PORT cfg) 0); lia).
  match type of Hb with _ = Ok ?m => set (msg := m) in * end.
  assert (Hjoin : exists ab,
             join_binaries (attributes msg) = Ok ab /\ len ab < 65536).
  { subst msg. cbn [attributes].
    unfold TYPE_MAPPED_ADDRESS, TYPE_SOURCE_ADDRESS, TYPE_CHANGED_ADDRESS.
    destruct cf; cbn [app].
    - destruct (Hcf eq_refl) as (c0 & c1 & c2 & c3 & -> & -> & Hcp0).
      eexists. split.
      + apply join_binaries_concat.
        repeat first [ apply Forall2_nil
                     | apply Forall2_cons;
                       [first [ apply address_binary; lia
                              | apply server_attribute_binary ] |] ].
      + vm_compute; reflexivity.
    - eexists. split.
      + apply join_binaries_concat.
        repeat first [ apply Forall2_nil
                     | apply Forall2_cons;
                       [first [ apply address_binary; lia
                              | apply server_attribute_binary ] |] ].
      + vm_compute; reflexivity. }
  destruct Hjoin as (ab & Hj & Hl).
  exists msg, ab. split; [exact Hb|]. split; [exact Hj|].
  unfold respond. rewrite Hb. simpl bind.
  rewrite (getBinary_ok msg ab); [reflexivity | | exact Hj | exact Hl].
  subst msg. unfold BINDING_RESPONSE. simpl. lia.
Qed.

(** ** Dispatch *)

Lemma bytes_eqb_eq (x y : bytes) : bytes_eqb x y = true <-> x = y.
Proof.
  unfold bytes_eqb. destruct (list_eq_dec byte_eq_dec x y);
    split; congruence.
Qed.

Lemma handleDatagram_request (cfg : Config) (lip data : bytes) (addr : address) :
  slice 0 2 data = be16 1 ->
  handleDatagram cfg lip data addr
  = match respond cfg lip data addr with
    | Ok payload => ([Print RECEIVED_REQUEST; SendTo payload addr], None)
    | Raise e => ([Print RECEIVED_REQUEST], Some e)
    end.
Proof.
  intros H. unfold handleDatagram.
  change (UInt16ToBytes 1) with (Ok (be16 1)). cbv iota beta.
  apply bytes_eqb_eq in H. rewrite H. reflexivity.
Qed.

Lemma handleDatagram_other (cfg : Config) (lip data : bytes) (addr : address) :
  slice 0 2 data <> be16 1 ->
  handleDatagram cfg lip data addr = ([Print NOT_UNDERSTOOD], None).
Proof.
  intros H. unfold handleDatagram.
  change (UInt16ToBytes 1) with (Ok (be16 1)). cbv iota beta.
  destruct (bytes_eqb (slice 0 2 data) (be16 1)) eqn:E; [|reflexivity].
  apply bytes_eqb_eq in E. contradiction.
Qed.


Lemma slice_firstn {A : Type} (i j n : nat) (l : list A) :
  (j <= n)%nat -> slice i j (firstn n l) = slice i j l.
Proof.
  intros H. unfold slice.
  rewrite skipn_firstn_comm, firstn_firstn. f_equal. lia.
Qed.

Lemma slice_length {A : Type} (i j : nat) (l : list A) :
  length (slice i j l) = Nat.min (j - i) (length l - i).
Proof. unfold slice. rewrite length_firstn, length_skipn. reflexivity. Qed.

(** The transaction identifier sits at offsets 4..19 of what is sent. *)
Lemma slice_of_response (h tid rest : bytes) :
  length h = 4%nat -> length tid = 16%nat ->
  slice 4 20 (h ++ tid ++ rest) = tid.
Proof.
  intros Hh Ht. unfold slice. change (20 - 4)%nat with 16%nat.
  rewrite skipn_app, Hh, Nat.sub_diag.
  rewrite skipn_all2 by lia. cbn [skipn app].
  rewrite firstn_app, Ht, Nat.sub_diag.
  rewrite firstn_all2 by lia. cbn [firstn]. apply app_nil_r.
Qed.

Lemma find_mapped (tid : bytes) (a : Attribute) (rest : list Attribute) :
  attributeType_of a = TYPE_MAPPED_ADDRESS ->
  find_attribute TYPE_MAPPED_ADDRESS
    (mkResponseMessage BINDING_RESPONSE tid (a :: rest)) = Some a.
Proof.
  intros H. unfold find_attribute. simpl. rewrite H. reflexivity.
Qed.

(** C1: with no MAPPED-ADDRESS override, the answer to a Binding Request
    carries, as its MAPPED-ADDRESS attribute, the address and port of the
    sender as the transport reported them: the payload is the family marker
    1, the sender port and the four sender address bytes. *)
Theorem C1_mapped_address_is_sender
    (cfg : Config) (l0 l1 l2 l3 : byte) (data : bytes)
    (a b c d : byte) (port : Z) :
  config_ok cfg ->
  RESPONSE_MAPPED_IP cfg = [] ->
  RESPONSE_MAPPED_PORT cfg < 0 ->
  0 <= port < 65536 ->
  slice 0 2 data = be16 1 ->
  let addr := (dotted a b c d, port) in
  let mapped :=
    IPv4AddressAndPortAttribute TYPE_MAPPED_ADDRESS
      (Some [a; b; c; d]) (Some port) in
  exists msg rest,
    buildResponse cfg [l0; l1; l2; l3] data addr = Ok msg
    /\ find_attribute TYPE_MAPPED_ADDRESS msg = Some mapped
    /\ getAttributeValue mapped = Ok ([x00; x01] ++ be16 port ++ [a; b; c; d])
    /\ handleDatagram cfg [l0; l1; l2; l3] data addr
       = ([Print RECEIVED_REQUEST;
           SendTo ([x01; x01] ++ be16 (12 + len rest) ++ slice 4 20 data
                     ++ ([x00; x01; x00; x08; x00; x01] ++ be16 port
                           ++ [a; b; c; d])
                     ++ rest) addr], None).
Proof.
  intros Hcfg Hip Hport Hp Hreq addr mapped.
  destruct (respond_ok cfg l0 l1 l2 l3 data a b c d port Hcfg Hp)
    as (msg & ab & Hb & Hj & Hr).
  fold addr in Hb, Hr.
  destruct (buildResponse_inv _ _ _ _ _ Hb)
    as (sp & mip & mport & mf & sip & sport & sf & cip & cport & cf
        & Hsp & Hm & _ & _ & Hmsg).
  unfold addr in Hsp, Hm; simpl in Hsp, Hm.
  rewrite IPv4Address_packed_dotted in Hsp. injection Hsp as <-.
  rewrite Hip, resolve_unset in Hm.
  destruct (Z.ltb_spec (RESPONSE_MAPPED_PORT cfg) 0) as [_|Hge]; [|lia].
  injection Hm as <- <- <-. fold mapped in Hmsg.
  rewrite Hmsg in Hj. cbn [attributes app] in Hj.
  cbn [join_binaries] in Hj. bind_inv Hj. bind_inv Hj. injection Hj as <-.
  unfold mapped, TYPE_MAPPED_ADDRESS in E.
  rewrite address_binary in E by lia. injection E as <-.
  exists msg, v0. split; [exact Hb|]. split; [|split].
  - rewrite Hmsg. apply find_mapped. reflexivity.
  - apply address_value. exact Hp.
  - rewrite (handleDatagram_request _ _ _ _ Hreq), Hr.
    do 4 f_equal. rewrite len_app. reflexivity.
Qed.

Lemma C1_witness :
  exists msg rest,
    buildResponse (shipped_config (str_of_string "0.0.0.0"))
      [x00; x00; x00; x00] zero_request
      (str_of_string "203.0.113.9", 54321) = Ok msg
    /\ find_attribute TYPE_MAPPED_ADDRESS msg
       = Some (IPv4AddressAndPortAttribute TYPE_MAPPED_ADDRESS
                 (Some [xcb; x00; x71; x09]) (Some 54321))
    /\ getAttributeValue
         (IPv4AddressAndPortAttribute TYPE_MAPPED_ADDRESS
            (Some [xcb; x00; x71; x09]) (Some 54321))
       = Ok [x00; x01; xd4; x31; xcb; x00; x71; x09]
    /\ handleDatagram (shipped_config (str_of_string "0.0.0.0"))
         [x00; x00; x00; x00] zero_request
         (str_of_string "203.0.113.9", 54321)
       = ([Print RECEIVED_REQUEST;
           SendTo ([x01; x01] ++ be16 (12 + len rest) ++ repeat x00 16
                     ++ [x00; x01; x00; x08;
                         x00; x01; xd4; x31; xcb; x00; x71; x09]
                     ++ rest)
             (str_of_string "203.0.113.9", 54321)], None).
Proof.
  apply (C1_mapped_address_is_sender (shipped_config (str_of_string "0.0.0.0"))
           x00 x00 x00 x00 zero_request xcb x00 x71 x09 54321).
  - constructor; simpl; first [lia | left; reflexivity].
  - reflexivity.
  - simpl; lia.
  - lia.
  - reflexivity.
Defined.

(** C2: the response object holds a CHANGED-ADDRESS attribute exactly when
    RESPONSE_CHANGED_IP is non-empty and RESPONSE_CHANGED_PORT is
    non-negative; and a response object is built whenever the three address
    settings are empty or well-formed. *)
Theorem C2_changed_address_iff_both_configured
    (cfg : Config) (lip data : bytes) :
  (forall (addr : address) (msg : ResponseMessage),
     buildResponse cfg lip data addr = Ok msg ->
     (find_attribute TYPE_CHANGED_ADDRESS msg <> None
      <-> RESPONSE_CHANGED_IP cfg <> [] /\ 0 <= RESPONSE_CHANGED_PORT cfg))
  /\ (forall (a b c d : byte) (port : Z),
        ip_setting_ok (RESPONSE_MAPPED_IP cfg) ->
        ip_setting_ok (RESPONSE_SOURCE_IP cfg) ->
        ip_setting_ok (RESPONSE_CHANGED_IP cfg) ->
        exists msg,
          buildResponse cfg lip data (dotted a b c d, port) = Ok msg).
Proof.
  split.
  - intros addr msg Hb.
    destruct (buildResponse_inv _ _ _ _ _ Hb)
      as (sp & mip & mport & mf & sip & sport & sf & cip & cport & cf
          & _ & _ & _ & Hc & ->).
    destruct (resolve_inv _ _ _ _ _ _ _ Hc) as (_ & Hflag & _).
    rewrite <- Hflag. unfold find_attribute. destruct cf; simpl.
    + split; [reflexivity | discriminate].
    + split; [intros H; exfalso; apply H; reflexivity | discriminate].
  - intros a b c d port Hm Hs Hc.
    destruct (resolve_total (RESPONSE_MAPPED_IP cfg)
                (RESPONSE_MAPPED_PORT cfg) (Some [a; b; c; d]) (Some port) Hm)
      as (mip & mport & mf & Em).
    destruct (resolve_total (RESPONSE_SOURCE_IP cfg)
                (RESPONSE_SOURCE_PORT cfg) (Some lip)
                (Some (LISTEN_PORT cfg)) Hs)
      as (sip & sport & sf & Es).
    destruct (resolve_total (RESPONSE_CHANGED_IP cfg)
                (RESPONSE_CHANGED_PORT cfg) None None Hc)
      as (cip & cport & cf & Ec).
    eexists.
    apply (buildResponse_intro cfg lip data (dotted a b c d, port)
             [a; b; c; d] _ _ _ _ _ _ _ _ _
             (IPv4Address_packed_dotted a b c d) Em Es Ec).
Qed.

Lemma C2_witness :
  (forall msg,
     buildResponse
       (mkConfig (str_of_string "0.0.0.0") 3478 [] (-1) [] (-1) [] 5000)
       [x00; x00; x00; x00] zero_request
       (str_of_string "203.0.113.9", 54321) = Ok msg ->
     find_attribute TYPE_CHANGED_ADDRESS msg = None)
  /\ exists msg,
       buildResponse
         (mkConfig (str_of_string "0.0.0.0") 3478 [] (-1) [] (-1) [] 5000)
         [x00; x00; x00; x00] zero_request
         (dotted xcb x00 x71 x09, 54321) = Ok msg.
Proof.
  destruct (C2_changed_address_iff_both_configured
              (mkConfig (str_of_string "0.0.0.0") 3478 [] (-1) [] (-1) [] 5000)
              [x00; x00; x00; x00] zero_request) as [Hiff Htotal].
  split.
  - intros msg Hb.
    destruct (find_attribute TYPE_CHANGED_ADDRESS msg) eqn:E; [|reflexivity].
    exfalso.
    assert (Hne : find_attribute TYPE_CHANGED_ADDRESS msg <> None)
      by (rewrite E; discriminate).
    apply (Hiff _ msg Hb) in Hne. destruct Hne as [Hip _].
    apply Hip. reflexivity.
  - apply (Htotal xcb x00 x71 x09 54321); left; reflexivity.
Defined.

(** C5: a datagram whose first two bytes are not the big-endian encoding of
    1 produces one log line and nothing else: nothing is sent, no exception
    leaves the loop body, and the loop goes on with the next datagram. *)
Theorem C5_unrecognized_is_dropped
    (cfg : Config) (lip data : bytes) (addr : address)
    (later : list (bytes * address)) :
  slice 0 2 data <> be16 1 ->
  handleDatagram cfg lip data addr = ([Print NOT_UNDERSTOOD], None)
  /\ serverLoop cfg lip ((data, addr) :: later)
     = (Print NOT_UNDERSTOOD :: fst (serverLoop cfg lip later),
        snd (serverLoop cfg lip later)).
Proof.
  intros H. split; [apply handleDatagram_other; exact H|].
  cbn [serverLoop recvfrom fst snd].
  rewrite handleDatagram_other
    by (rewrite slice_firstn by lia; exact H).
  destruct (serverLoop cfg lip later) as [events outcome]. reflexivity.
Qed.

Lemma C5_witness :
  handleDatagram (shipped_config (str_of_string "0.0.0.0"))
    [x00; x00; x00; x00] ([x00; x02] ++ repeat x00 18)
    (str_of_string "203.0.113.9", 54321)
  = ([Print NOT_UNDERSTOOD], None)
  /\ serverLoop (shipped_config (str_of_string "0.0.0.0"))
       [x00; x00; x00; x00]
       [([x00; x02] ++ repeat x00 18, (str_of_string "203.0.113.9", 54321));
        ([x01], (str_of_string "203.0.113.9", 54321))]
     = (Print NOT_UNDERSTOOD
          :: fst (serverLoop (shipped_config (str_of_string "0.0.0.0"))
                    [x00; x00; x00; x00]
                    [([x01], (str_of_string "203.0.113.9", 54321))]),
        snd (serverLoop (shipped_config (str_of_string "0.0.0.0"))
               [x00; x00; x00; x00]
               [([x01], (str_of_string "203.0.113.9", 54321))])).
Proof.
  apply (C5_unrecognized_is_dropped
           (shipped_config (str_of_string "0.0.0.0")) [x00; x00; x00; x00]
           ([x00; x02] ++ repeat x00 18)).
  discriminate.
Defined.

(** C6: for a Binding Request of at least 20 bytes, the transaction
    identifier of the response is bytes 4..19 of the request, sixteen
    bytes, and they stand unchanged at offsets 4..19 of what is sent. *)
Theorem C6_transaction_id_is_copied
    (cfg : Config) (l0 l1 l2 l3 : byte) (data : bytes)
    (a b c d : byte) (port : Z) :
  config_ok cfg ->
  0 <= port < 65536 ->
  slice 0 2 data = be16 1 ->
  (20 <= length data)%nat ->
  let addr := (dotted a b c d, port) in
  exists msg payload,
    buildResponse cfg [l0; l1; l2; l3] data addr = Ok msg
    /\ messageTransactionID msg = slice 4 20 data
    /\ length (messageTransactionID msg) = 16%nat
    /\ handleDatagram cfg [l0; l1; l2; l3] data addr
       = ([Print RECEIVED_REQUEST; SendTo payload addr], None)
    /\ slice 4 20 payload = slice 4 20 data.
Proof.
  intros Hcfg Hp Hreq Hlen addr.
  destruct (respond_ok cfg l0 l1 l2 l3 data a b c d port Hcfg Hp)
    as (msg & ab & Hb & Hj & Hr).
  fold addr in Hb, Hr.
  destruct (buildResponse_inv _ _ _ _ _ Hb)
    as (sp & mip & mport & mf & sip & sport & sf & cip & cport & cf
        & _ & _ & _ & _ & Hmsg).
  assert (Htid : length (slice 4 20 data) = 16%nat)
    by (rewrite slice_length; lia).
  eexists msg, _. split; [exact Hb|].
  split; [rewrite Hmsg; reflexivity|].
  split; [rewrite Hmsg; exact Htid|].
  split.
  - rewrite (handleDatagram_request _ _ _ _ Hreq), Hr. reflexivity.
  - rewrite app_assoc. apply slice_of_response; [reflexivity | exact Htid].
Qed.

Lemma C6_witness :
  exists msg payload,
    buildResponse (shipped_config (str_of_string "0.0.0.0"))
      [x00; x00; x00; x00]
      ([x00; x01; x00; x00] ++ repeat xa5 16 ++ [xff; xff])
      (dotted xcb x00 x71 x09, 54321) = Ok msg
    /\ messageTransactionID msg = repeat xa5 16
    /\ length (messageTransactionID msg) = 16%nat
    /\ handleDatagram (shipped_config (str_of_string "0.0.0.0"))
         [x00; x00; x00; x00]
         ([x00; x01; x00; x00] ++ repeat xa5 16 ++ [xff; xff])
         (dotted xcb x00 x71 x09, 54321)
       = ([Print RECEIVED_REQUEST;
           SendTo payload (dotted xcb x00 x71 x09, 54321)], None)
    /\ slice 4 20 payload = repeat xa5 16.
Proof.
  apply (C6_transaction_id_is_copied
           (shipped_config (str_of_string "0.0.0.0")) x00 x00 x00 x00
           ([x00; x01; x00; x00] ++ repeat xa5 16 ++ [xff; xff])
           xcb x00 x71 x09 54321).
  - constructor; simpl; first [lia | left; reflexivity].
  - lia.
  - reflexivity.
  - simpl; lia.
Defined.

(** C9: when both the MAPPED-ADDRESS address and port are configured, any
    two requests, whoever sent them, get the same MAPPED-ADDRESS attribute:
    the configured address and port. *)
Theorem C9_fixed_mapping_ignores_sender
    (cfg : Config) (lip : bytes) (m0 m1 m2 m3 : byte)
    (data1 data2 : bytes) (addr1 addr2 : address)
    (msg1 msg2 : ResponseMessage) :
  RESPONSE_MAPPED_IP cfg = dotted m0 m1 m2 m3 ->
  0 <= RESPONSE_MAPPED_PORT cfg ->
  buildResponse cfg lip data1 addr1 = Ok msg1 ->
  buildResponse cfg lip data2 addr2 = Ok msg2 ->
  find_attribute TYPE_MAPPED_ADDRESS msg1
  = Some (IPv4AddressAndPortAttribute TYPE_MAPPED_ADDRESS
            (Some [m0; m1; m2; m3]) (Some (RESPONSE_MAPPED_PORT cfg)))
  /\ find_attribute TYPE_MAPPED_ADDRESS msg2
     = find_attribute TYPE_MAPPED_ADDRESS msg1.
Proof.
  intros Hip Hport Hb1 Hb2.
  assert (Hfix : forall data addr msg,
             buildResponse cfg lip data addr = Ok msg ->
             find_attribute TYPE_MAPPED_ADDRESS msg
             = Some (IPv4AddressAndPortAttribute TYPE_MAPPED_ADDRESS
                       (Some [m0; m1; m2; m3])
                       (Some (RESPONSE_MAPPED_PORT cfg)))).
  { intros data addr msg Hb.
    destruct (buildResponse_inv _ _ _ _ _ Hb)
      as (sp & mip & mport & mf & sip & sport & sf & cip & cport & cf
          & _ & Hm & _ & _ & ->).
    rewrite Hip, resolve_dotted in Hm.
    destruct (Z.ltb_spec (RESPONSE_MAPPED_PORT cfg) 0) as [Hlt|_]; [lia|].
    injection Hm as <- <- <-. apply find_mapped. reflexivity. }
  split.
  - exact (Hfix _ _ _ Hb1).
  - rewrite (Hfix _ _ _ Hb1). exact (Hfix _ _ _ Hb2).
Qed.

Lemma C9_witness :
  exists msg1 msg2,
    buildResponse
      (fixed_mapping_config (str_of_string "0.0.0.0")
         (str_of_string "198.51.100.7") 40000)
      [x00; x00; x00; x00] zero_request
      (str_of_string "203.0.113.9", 54321) = Ok msg1
    /\ buildResponse
         (fixed_mapping_config (str_of_string "0.0.0.0")
            (str_of_string "198.51.100.7") 40000)
         [x00; x00; x00; x00] ([x00; x01] ++ repeat xff 30)
         (str_of_string "192.0.2.200", 1024) = Ok msg2
    /\ find_attribute TYPE_MAPPED_ADDRESS msg1
       = Some (IPv4AddressAndPortAttribute TYPE_MAPPED_ADDRESS
                 (Some [xc6; x33; x64; x07]) (Some 40000))
    /\ find_attribute TYPE_MAPPED_ADDRESS msg2
       = find_attribute TYPE_MAPPED_ADDRESS msg1
    /\ getAttributeValue
         (IPv4AddressAndPortAttribute TYPE_MAPPED_ADDRESS
            (Some [xc6; x33; x64; x07]) (Some 40000))
       = Ok [x00; x01; x9c; x40; xc6; x33; x64; x07].
Proof.
  eexists. eexists.
  split; [reflexivity|]. split; [reflexivity|].
  rewrite <- and_assoc. split; [|reflexivity].
  apply (C9_fixed_mapping_ignores_sender
           (fixed_mapping_config (str_of_string "0.0.0.0")
              (str_of_string "198.51.100.7") 40000)
           [x00; x00; x00; x00] xc6 x33 x64 x07
           zero_request ([x00; x01] ++ repeat xff 30)
           (str_of_string "203.0.113.9", 54321)
           (str_of_string "192.0.2.200", 1024)).
  - reflexivity.
  - simpl; lia.
  - reflexivity.
  - reflexivity.
Defined.

(** C10: a Binding Request shorter than 20 bytes is answered all the same:
    the slice yields the bytes that are there, fewer than sixteen and
    possibly none, and the datagram sent carries them where the transaction
    identifier belongs. *)
Theorem C10_short_request_is_answered
    (cfg : Config) (l0 l1 l2 l3 : byte) (data : bytes)
    (a b c d : byte) (port : Z) :
  config_ok cfg ->
  0 <= port < 65536 ->
  slice 0 2 data = be16 1 ->
  (length data < 20)%nat ->
  let addr := (dotted a b c d, port) in
  exists attributesBinary,
    handleDatagram cfg [l0; l1; l2; l3] data addr
    = ([Print RECEIVED_REQUEST;
        SendTo ([x01; x01] ++ be16 (len attributesBinary)
                  ++ slice 4 20 data ++ attributesBinary) addr], None)
    /\ slice 4 20 data = skipn 4 data
    /\ length (slice 4 20 data) = (length data - 4)%nat
    /\ (length (slice 4 20 data) < 16)%nat.
Proof.
  intros Hcfg Hp Hreq Hlen addr.
  destruct (respond_ok cfg l0 l1 l2 l3 data a b c d port Hcfg Hp)
    as (msg & ab & Hb & Hj & Hr).
  fold addr in Hr.
  exists ab. split.
  - rewrite (handleDatagram_request _ _ _ _ Hreq), Hr. reflexivity.
  - split; [|rewrite slice_length; lia].
    unfold slice. apply firstn_all2. rewrite length_skipn. lia.
Qed.

Lemma C10_witness :
  exists attributesBinary,
    handleDatagram (shipped_config (str_of_string "0.0.0.0"))
      [x00; x00; x00; x00] [x00; x01; x00; x00; xde; xad]
      (dotted xcb x00 x71 x09, 54321)
    = ([Print RECEIVED_REQUEST;
        SendTo ([x01; x01] ++ be16 (len attributesBinary)
                  ++ [xde; xad] ++ attributesBinary)
          (dotted xcb x00 x71 x09, 54321)], None)
    /\ slice 4 20 [x00; x01; x00; x00; xde; xad]
       = skipn 4 [x00; x01; x00; x00; xde; xad]
    /\ length (slice 4 20 [x00; x01; x00; x00; xde; xad]) = 2%nat
    /\ (length (slice 4 20 [x00; x01; x00; x00; xde; xad]) < 16)%nat.
Proof.
  apply (C10_short_request_is_answered
           (shipped_config (str_of_string "0.0.0.0")) x00 x00 x00 x00
           [x00; x01; x00; x00; xde; xad] xcb x00 x71 x09 54321).
  - constructor; simpl; first [lia | left; reflexivity].
  - lia.
  - reflexivity.
  - simpl; lia.
Defined.

(** * Further properties *)

(** ** Integer encoders, all widths *)

Lemma byte_of_Z_value (z : Z) : Z.of_N (Byte.to_N (byte_of_Z z)) = z mod 256.
Proof.
  unfold byte_of_Z.
  assert (Hb : 0 <= z mod 256 < 256) by (apply Z.mod_pos_bound; lia).
  destruct (Byte.of_N (Z.to_N (z mod 256))) as [b|] eqn:E.
  - apply Byte.to_of_N in E. rewrite E. lia.
  - apply Byte.of_N_None_iff in E. lia.
Qed.

Lemma from_bytes_snoc (b : bytes) (x : byte) :
  from_bytes (b ++ [x]) = 256 * from_bytes b + Z.of_N (Byte.to_N x).
Proof. unfold from_bytes. rewrite fold_left_app. reflexivity. Qed.

Lemma big_endian_length (width : nat) (n : Z) :
  length (big_endian width n) = width.
Proof.
  revert n. induction width as [|w IH]; intros n; simpl; [reflexivity|].
  rewrite length_app, IH. simpl. lia.
Qed.

Lemma from_bytes_big_endian (width : nat) (n : Z) :
  0 <= n < 2 ^ (8 * Z.of_nat width) ->
  from_bytes (big_endian width n) = n.
Proof.
  revert n. induction width as [|w IH]; intros n Hn.
  - simpl in *. change (2 ^ 0) with 1 in Hn. unfold from_bytes; simpl. lia.
  - cbn [big_endian]. rewrite from_bytes_snoc, byte_of_Z_value.
    replace (8 * Z.of_nat (S w)) with (8 + 8 * Z.of_nat w) in Hn by lia.
    rewrite Z.pow_add_r in Hn by lia. change (2 ^ 8) with 256 in Hn.
    rewrite IH.
    + rewrite Z.mod_mod by lia. symmetry. apply Z_div_mod_eq_full.
    + split; [apply Z.div_pos; lia|].
      apply Z.div_lt_upper_bound; lia.
Qed.

Lemma to_bytes_exn (n : Z) (width : nat) (e : exn) :
  to_bytes n width = Raise e -> e = OverflowError.
Proof.
  unfold to_bytes. destruct (n <? 0); [congruence|].
  destruct (2 ^ (8 * Z.of_nat width) <=? n); congruence.
Qed.

Lemma from_bytes_be16 (n : Z) : 0 <= n < 65536 -> from_bytes (be16 n) = n.
Proof.
  intros Hn. apply (from_bytes_big_endian 2) in Hn as H.
  cbn [big_endian app] in H. unfold be16. rewrite <- H at 3.
  do 3 f_equal. symmetry. apply Z.mod_small. split.
  - apply Z.div_pos; lia.
  - apply Z.div_lt_upper_bound; lia.
Qed.

(** X1: each of the three encoders, on a number that fits its width,
    returns exactly that many bytes, and reading them back big-endian gives
    the number again; on a negative number or one that does not fit it
    raises the overflow exception. *)
Theorem encoders_round_trip (enc : Z -> result bytes) (width : nat) (n : Z) :
  In (enc, width)
     [(UInt8ToBytes, 1%nat); (UInt16ToBytes, 2%nat); (UInt32ToBytes, 4%nat)] ->
  (0 <= n < 2 ^ (8 * Z.of_nat width) ->
   exists b, enc n = Ok b /\ length b = width /\ from_bytes b = n)
  /\ (n < 0 \/ 2 ^ (8 * Z.of_nat width) <= n -> enc n = Raise OverflowError).
Proof.
  intros Hin.
  assert (Henc : enc = fun m => to_bytes m width).
  { simpl in Hin.
    destruct Hin as [H|[H|[H|[]]]]; injection H as <- <-; reflexivity. }
  subst enc. clear Hin. unfold to_bytes. split.
  - intros Hn. exists (big_endian width n).
    destruct (Z.ltb_spec n 0); [lia|].
    destruct (Z.leb_spec (2 ^ (8 * Z.of_nat width)) n); [lia|].
    split; [reflexivity|]. split.
    + apply big_endian_length.
    + apply from_bytes_big_endian. exact Hn.
  - intros Hn. destruct (Z.ltb_spec n 0); [reflexivity|].
    destruct (Z.leb_spec (2 ^ (8 * Z.of_nat width)) n); [reflexivity | lia].
Qed.

Lemma encoders_round_trip_witness :
  (exists b, UInt32ToBytes 3405803785 = Ok b /\ length b = 4%nat
             /\ from_bytes b = 3405803785)
  /\ UInt8ToBytes 256 = Raise OverflowError.
Proof.
  split.
  - apply (encoders_round_trip UInt32ToBytes 4 3405803785).
    + simpl. right. right. left. reflexivity.
    + simpl. lia.
  - apply (encoders_round_trip UInt8ToBytes 1 256).
    + simpl. left. reflexivity.
    + right. simpl. lia.
Defined.

(** ** Configuration resolution, all cases *)

(** X2: an explicit override wins whatever the defaults are: a well-formed
    address together with a non-negative port resolves to exactly that
    address and port, flagged as fully configured. *)
Theorem explicit_override_wins (a b c d : byte) (port : Z)
    (defaultIP : option bytes) (defaultPort : option Z) :
  0 <= port ->
  getConfigurationIpAndPort (dotted a b c d) port defaultIP defaultPort
  = Ok (Some [a; b; c; d], Some port, true).
Proof.
  intros Hp. rewrite resolve_dotted.
  destruct (Z.ltb_spec port 0); [lia | reflexivity].
Qed.

Lemma explicit_override_wins_witness :
  getConfigurationIpAndPort (str_of_string "198.51.100.7") 40000 None None
  = Ok (Some [xc6; x33; x64; x07], Some 40000, true).
Proof. apply (explicit_override_wins xc6 x33 x64 x07 40000). lia. Defined.

Lemma resolve_shape
    (ip : str) (port : Z) (defaultIP : option bytes) (defaultPort : option Z)
    (rip : option bytes) (rport : option Z) (flag : bool) :
  getConfigurationIpAndPort ip port defaultIP defaultPort
  = Ok (rip, rport, flag) ->
  (ip = [] -> rip = defaultIP)
  /\ (ip <> [] ->
      exists a b c d : byte, ip = dotted a b c d /\ rip = Some [a; b; c; d])
  /\ (port < 0 -> rport = defaultPort)
  /\ (0 <= port -> rport = Some port)
  /\ (flag = true <-> ip <> [] /\ 0 <= port).
Proof.
  intros H. destruct (resolve_inv _ _ _ _ _ _ _ H) as (Hport & Hflag & Hd & Hs).
  split; [exact Hd|]. split; [|split; [|split]].
  - intros Hne. destruct (Hs Hne) as (packed & Hp & ->).
    destruct (IPv4Address_packed_sound _ _ Hp) as (a & b & c & d & -> & ->).
    exists a, b, c, d. split; reflexivity.
  - intros Hp. rewrite Hport. destruct (Z.ltb_spec port 0); [reflexivity | lia].
  - intros Hp. rewrite Hport. destruct (Z.ltb_spec port 0); [lia | reflexivity].
  - exact Hflag.
Qed.

(** X3: address and port are resolved independently of each other.  When
    resolution succeeds, an empty address gives the default address and a
    non-empty one is the dotted-decimal text of the four bytes returned; a
    negative port gives the default port and any other port is returned as
    it is; the flag is set exactly when neither default was used. *)
Theorem resolution_is_componentwise
    (ip : str) (port : Z) (defaultIP : option bytes) (defaultPort : option Z)
    (rip : option bytes) (rport : option Z) (flag : bool) :
  getConfigurationIpAndPort ip port defaultIP defaultPort
  = Ok (rip, rport, flag) ->
  (ip = [] -> rip = defaultIP)
  /\ (ip <> [] ->
      exists a b c d : byte, ip = dotted a b c d /\ rip = Some [a; b; c; d])
  /\ (port < 0 -> rport = defaultPort)
  /\ (0 <= port -> rport = Some port)
  /\ (flag = true <-> ip <> [] /\ 0 <= port).
Proof.
  intros H. destruct (resolve_inv _ _ _ _ _ _ _ H) as (Hport & Hflag & Hd & Hs).
  split; [exact Hd|]. split; [|split; [|split]].
  - intros Hne. destruct (Hs Hne) as (packed & Hp & ->).
    destruct (IPv4Address_packed_sound _ _ Hp) as (a & b & c & d & -> & ->).
    exists a, b, c, d. split; reflexivity.
  - intros Hp. rewrite Hport. destruct (Z.ltb_spec port 0); [reflexivity | lia].
  - intros Hp. rewrite Hport. destruct (Z.ltb_spec port 0); [lia | reflexivity].
  - exact Hflag.
Qed.

Lemma resolution_is_componentwise_witness :
  (str_of_string "198.51.100.7" = [] ->
   Some [xc6; x33; x64; x07] = Some [x7f; x00; x00; x01])
  /\ (str_of_string "198.51.100.7" <> [] ->
      exists a b c d : byte,
        str_of_string "198.51.100.7" = dotted a b c d
        /\ Some [xc6; x33; x64; x07] = Some [a; b; c; d])
  /\ (-1 < 0 -> Some 54321 = Some 54321)
  /\ (0 <= -1 -> Some 54321 = Some (-1))
  /\ (false = true <-> str_of_string "198.51.100.7" <> [] /\ 0 <= -1).
Proof.
  apply (resolution_is_componentwise (str_of_string "198.51.100.7") (-1)
           (Some [x7f; x00; x00; x01]) (Some 54321)).
  reflexivity.
Defined.

(** ** The wire format read back *)

Lemma Attribute_getBinary_inv (a : Attribute) (b : bytes) :
  Attribute_getBinary a = Ok b ->
  exists payload,
    getAttributeValue a = Ok payload
    /\ 0 <= attributeType_of a < 65536
    /\ len payload < 65536
    /\ b = be16 (attributeType_of a) ++ be16 (len payload) ++ payload.
Proof.
  unfold Attribute_getBinary. intros H.
  bind_inv H. bind_inv H. bind_inv H. injection H as <-.
  apply UInt16ToBytes_inv in E0. destruct E0 as [Ht ->].
  apply UInt16ToBytes_inv in E1. destruct E1 as [Hl ->].
  exists v. repeat split; try assumption; lia.
Qed.

Lemma getBinary_inv (m : ResponseMessage) (b : bytes) :
  getBinary m = Ok b ->
  exists attributesBinary,
    join_binaries (attributes m) = Ok attributesBinary
    /\ 0 <= messageType m < 65536
    /\ len attributesBinary < 65536
    /\ b = be16 (messageType m) ++ be16 (len attributesBinary)
             ++ messageTransactionID m ++ attributesBinary.
Proof.
  unfold getBinary. intros H.
  bind_inv H. bind_inv H. bind_inv H. injection H as <-.
  apply UInt16ToBytes_inv in E0. destruct E0 as [Ht ->].
  apply UInt16ToBytes_inv in E1. destruct E1 as [Hl ->].
  exists v. repeat split; try assumption; lia.
Qed.

Lemma two_fields (h1 h2 rest : bytes) :
  length h1 = 2%nat -> length h2 = 2%nat ->
  slice 0 2 (h1 ++ h2 ++ rest) = h1
  /\ slice 2 4 (h1 ++ h2 ++ rest) = h2
  /\ skipn 4 (h1 ++ h2 ++ rest) = rest.
Proof.
  intros H1 H2.
  destruct h1 as [|x1 [|x2 [|? ?]]]; try discriminate H1.
  destruct h2 as [|y1 [|y2 [|? ?]]]; try discriminate H2.
  repeat split.
Qed.

(** X4: in every message that serializes, the first two bytes read back as
    the message type, the next two as the number of bytes that follow the
    transaction identifier, and the transaction identifier starts at
    offset 4. *)
Theorem header_fields_read_back (m : ResponseMessage) (b : bytes) :
  getBinary m = Ok b ->
  from_bytes (slice 0 2 b) = messageType m
  /\ from_bytes (slice 2 4 b) + len (messageTransactionID m) + 4 = len b
  /\ firstn (length (messageTransactionID m)) (skipn 4 b)
     = messageTransactionID m.
Proof.
  intros H. destruct (getBinary_inv m b H) as (ab & _ & Ht & Hl & ->).
  pose proof (len_nonneg ab) as Hab.
  destruct (two_fields (be16 (messageType m)) (be16 (len ab))
              (messageTransactionID m ++ ab) eq_refl eq_refl)
    as (-> & -> & ->).
  split; [|split].
  - apply (from_bytes_be16 _ Ht).
  - rewrite (from_bytes_be16 (len ab)) by lia.
    rewrite !len_app. change (len (be16 (messageType m))) with 2.
    change (len (be16 (len ab))) with 2. lia.
  - rewrite firstn_app, Nat.sub_diag, firstn_all. cbn [firstn].
    apply app_nil_r.
Qed.

Lemma header_fields_read_back_witness :
  from_bytes (slice 0 2 ([x01; x01; x00; x0c] ++ repeat xaa 16
                           ++ [x00; x01; x00; x08; x00; x01; xd4; x31;
                               xcb; x00; x71; x09])) = 257
  /\ from_bytes (slice 2 4 ([x01; x01; x00; x0c] ++ repeat xaa 16
                              ++ [x00; x01; x00; x08; x00; x01; xd4; x31;
                                  xcb; x00; x71; x09]))
     + len (repeat xaa 16) + 4
     = len ([x01; x01; x00; x0c] ++ repeat xaa 16
              ++ [x00; x01; x00; x08; x00; x01; xd4; x31;
                  xcb; x00; x71; x09])
  /\ firstn (length (repeat xaa 16))
       (skipn 4 ([x01; x01; x00; x0c] ++ repeat xaa 16
                   ++ [x00; x01; x00; x08; x00; x01; xd4; x31;
                       xcb; x00; x71; x09]))
     = repeat xaa 16.
Proof.
  apply (header_fields_read_back
           (mkResponseMessage 257 (repeat xaa 16)
              [IPv4AddressAndPortAttribute 1
                 (Some [xcb; x00; x71; x09]) (Some 54321)])).
  reflexivity.
Defined.

(** X5: a length that does not fit sixteen bits is never cut down to fit:
    an attribute whose payload has 65536 bytes or more, and a message whose
    attributes serialize to 65536 bytes or more, raise the overflow
    exception instead of producing bytes. *)
Theorem oversize_is_refused :
  (forall (a : Attribute) (payload : bytes),
     getAttributeValue a = Ok payload ->
     65536 <= len payload ->
     Attribute_getBinary a = Raise OverflowError)
  /\ (forall (m : ResponseMessage) (attributesBinary : bytes),
        join_binaries (attributes m) = Ok attributesBinary ->
        65536 <= len attributesBinary ->
        getBinary m = Raise OverflowError).
Proof.
  split.
  - intros a payload Hv Hl. unfold Attribute_getBinary. rewrite Hv. simpl.
    destruct (UInt16ToBytes (attributeType_of a)) as [t|e] eqn:Et; simpl.
    + rewrite UInt16ToBytes_overflow by lia. reflexivity.
    + f_equal. exact (to_bytes_exn _ _ _ Et).
  - intros m ab Hj Hl. unfold getBinary. rewrite Hj. simpl.
    destruct (UInt16ToBytes (messageType m)) as [t|e] eqn:Et; simpl.
    + rewrite UInt16ToBytes_overflow by lia. reflexivity.
    + f_equal. exact (to_bytes_exn _ _ _ Et).
Qed.

Lemma text_of_letters_value (t : Z) (n : nat) :
  getAttributeValue (TextAttribute t (repeat 65%N n))
  = Ok (repeat x41 n ++ [x00]).
Proof.
  unfold getAttributeValue.
  assert (H : encode_utf8 (repeat 65%N n) = Ok (repeat x41 n)).
  { induction n as [|n IH]; [reflexivity|].
    cbn [repeat encode_utf8]. rewrite IH. reflexivity. }
  rewrite H. reflexivity.
Qed.

Lemma join_binaries_repeat (a : Attribute) (b : bytes) (n : nat) :
  Attribute_getBinary a = Ok b ->
  join_binaries (repeat a n) = Ok (concat (repeat b n)).
Proof.
  intros H. induction n as [|n IH]; [reflexivity|].
  cbn [repeat join_binaries concat]. rewrite H, IH. reflexivity.
Qed.

Lemma len_concat_repeat (b : bytes) (n : nat) :
  len (concat (repeat b n)) = Z.of_nat n * len b.
Proof.
  induction n as [|n IH]; [reflexivity|].
  cbn [repeat concat]. rewrite len_app, IH. lia.
Qed.

Lemma oversize_is_refused_witness :
  Attribute_getBinary
    (TextAttribute TYPE_SERVER (repeat 65%N (N.to_nat 65535)))
  = Raise OverflowError
  /\ getBinary
       (mkResponseMessage BINDING_RESPONSE (repeat x00 16)
          (repeat (IPv4AddressAndPortAttribute TYPE_MAPPED_ADDRESS
                     (Some [xcb; x00; x71; x09]) (Some 54321))
             (N.to_nat 5462)))
     = Raise OverflowError.
Proof.
  destruct oversize_is_refused as [Hattr Hmsg]. split.
  - apply (Hattr _ (repeat x41 (N.to_nat 65535) ++ [x00])).
    + apply text_of_letters_value.
    + rewrite len_app. unfold len. rewrite repeat_length.
      cbn [length]. lia.
  - apply (Hmsg _ (concat (repeat [x00; x01; x00; x08; x00; x01; xd4; x31;
                                   xcb; x00; x71; x09] (N.to_nat 5462)))).
    + cbn [attributes]. apply join_binaries_repeat. reflexivity.
    + rewrite len_concat_repeat. unfold len. cbn [length]. lia.
Defined.

Lemma join_binaries_length (attrs : list Attribute) (b : bytes) :
  join_binaries attrs = Ok b -> (4 * length attrs <= length b)%nat.
Proof.
  revert b. induction attrs as [|a attrs IH]; intros b H.
  - simpl. lia.
  - cbn [join_binaries] in H. bind_inv H. bind_inv H. injection H as <-.
    destruct (Attribute_getBinary_inv _ _ E) as (p & _ & _ & _ & ->).
    specialize (IH _ E0). rewrite !length_app. cbn [length be16].
    simpl length. lia.
Qed.

Lemma parse_attributes_join (attrs : list Attribute) :
  forall (b : bytes) (fuel : nat),
    join_binaries attrs = Ok b ->
    (length attrs <= fuel)%nat ->
    exists payloads,
      Forall2 (fun a p => getAttributeValue a = Ok p) attrs payloads
      /\ parse_attributes fuel b
         = Some (combine (map attributeType_of attrs) payloads).
Proof.
  induction attrs as [|a attrs IH]; intros b fuel H Hfuel.
  - injection H as <-. exists []. split; [constructor|].
    destruct fuel; reflexivity.
  - cbn [join_binaries] in H. bind_inv H. bind_inv H. injection H as <-.
    destruct (Attribute_getBinary_inv _ _ E) as (p & Hv & Ht & Hl & ->).
    destruct fuel as [|fuel]; [simpl in Hfuel; lia|].
    destruct (IH v0 fuel E0 ltac:(simpl in Hfuel; lia)) as (ps & Hps & Hparse).
    exists (p :: ps). split; [constructor; assumption|].
    pose proof (len_nonneg p) as Hp0.
    assert (Hn : Z.to_nat (from_bytes (be16 (len p))) = length p)
      by (rewrite from_bytes_be16 by lia; unfold len; lia).
    assert (Hty : from_bytes (be16 (attributeType_of a)) = attributeType_of a)
      by (apply from_bytes_be16; exact Ht).
    unfold be16 in Hn, Hty |- *.
    cbn [app parse_attributes map combine].
    rewrite Hn, Hty.
    destruct (Nat.ltb_spec (length (p ++ v0)) (length p)) as [Hlt|_];
      [rewrite length_app in Hlt; lia|].
    rewrite skipn_app, Nat.sub_diag, skipn_all. cbn [skipn app].
    rewrite firstn_app, Nat.sub_diag, firstn_all. cbn [firstn].
    rewrite app_nil_r, Hparse. reflexivity.
Qed.

(** X6: the attribute run of a message can be read back without loss:
    walking the bytes by their length prefixes yields, in order, exactly
    the type code and the payload of every attribute that was added. *)
Theorem attributes_read_back (attrs : list Attribute) (b : bytes) :
  join_binaries attrs = Ok b ->
  exists payloads,
    Forall2 (fun a p => getAttributeValue a = Ok p) attrs payloads
    /\ parse_attributes (length b) b
       = Some (combine (map attributeType_of attrs) payloads).
Proof.
  intros H. apply parse_attributes_join; [exact H|].
  pose proof (join_binaries_length _ _ H). lia.
Qed.

Lemma attributes_read_back_witness :
  exists payloads,
    Forall2 (fun a p => getAttributeValue a = Ok p)
      [IPv4AddressAndPortAttribute 1 (Some [xcb; x00; x71; x09]) (Some 54321);
       TextAttribute 32802 (str_of_string "ok")] payloads
    /\ parse_attributes 19
         [x00; x01; x00; x08; x00; x01; xd4; x31; xcb; x00; x71; x09;
          x80; x22; x00; x03; x6f; x6b; x00]
       = Some (combine [1; 32802] payloads).
Proof.
  apply (attributes_read_back
           [IPv4AddressAndPortAttribute 1
              (Some [xcb; x00; x71; x09]) (Some 54321);
            TextAttribute 32802 (str_of_string "ok")]
           [x00; x01; x00; x08; x00; x01; xd4; x31; xcb; x00; x71; x09;
            x80; x22; x00; x03; x6f; x6b; x00]).
  reflexivity.
Defined.

(** ** Start-up *)

(** X7: a listen address that is empty or malformed stops the server
    before it prints anything or reads a single datagram. *)
Theorem bad_listen_address_stops_startup
    (cfg : Config) (incoming : list (bytes * address)) :
  ~ dotted_decimal (LISTEN_IP cfg) ->
  startServer cfg incoming = ([], Some AddressValueError).
Proof.
  intros H. unfold startServer.
  rewrite (IPv4Address_packed_reject _ H). reflexivity.
Qed.

Lemma bad_listen_address_stops_startup_witness :
  startServer (shipped_config [])
    [(zero_request, (str_of_string "203.0.113.9", 54321))]
  = ([], Some AddressValueError).
Proof.
  apply bad_listen_address_stops_startup.
  apply (not_dotted_decimal _ AddressValueError). reflexivity.
Defined.

(** ** What a built response holds *)

Lemma resolve_exn (ip : str) (port : Z)
    (defaultIP : option bytes) (defaultPort : option Z) (e : exn) :
  getConfigurationIpAndPort ip port defaultIP defaultPort = Raise e ->
  e = AddressValueError.
Proof.
  unfold getConfigurationIpAndPort. destruct ip as [|c0 ip].
  - simpl. destruct (port <? 0); discriminate.
  - destruct (IPv4Address_packed (c0 :: ip)) as [p|e'] eqn:E; simpl.
    + destruct (port <? 0); discriminate.
    + intros H. injection H as <-. exact (IPv4Address_packed_exn _ _ E).
Qed.

Lemma buildResponse_exn (cfg : Config) (lip data : bytes) (addr : address)
    (e : exn) :
  buildResponse cfg lip data addr = Raise e -> e = AddressValueError.
Proof.
  unfold buildResponse.
  destruct (IPv4Address_packed (fst addr)) as [sp|e0] eqn:Es; simpl;
    [|intros H; injection H as <-; exact (IPv4Address_packed_exn _ _ Es)].
  destruct (getConfigurationIpAndPort (RESPONSE_MAPPED_IP cfg) _ _ _)
    as [[[mip mport] mf]|e0] eqn:Em; simpl;
    [|intros H; injection H as <-; exact (resolve_exn _ _ _ _ _ Em)].
  destruct (getConfigurationIpAndPort (RESPONSE_SOURCE_IP cfg) _ _ _)
    as [[[sip sport] sf]|e0] eqn:Eso; simpl;
    [|intros H; injection H as <-; exact (resolve_exn _ _ _ _ _ Eso)].
  destruct (getConfigurationIpAndPort (RESPONSE_CHANGED_IP cfg) _ _ _)
    as [[[cip cport] cf]|e0] eqn:Ec; simpl;
    [|intros H; injection H as <-; exact (resolve_exn _ _ _ _ _ Ec)].
  discriminate.
Qed.

(** With defaults that are present, what is resolved is present too. *)
Lemma resolve_present (ip : str) (port : Z) (d : bytes) (dp : Z)
    (rip : option bytes) (rport : option Z) (flag : bool) :
  length d = 4%nat ->
  getConfigurationIpAndPort ip port (Some d) (Some dp) = Ok (rip, rport, flag) ->
  exists r p, rip = Some r /\ rport = Some p /\ length r = 4%nat.
Proof.
  intros Hd H.
  destruct (resolve_shape _ _ _ _ _ _ _ H) as (He & Hne & Hneg & Hpos & _).
  assert (Hp : exists p, rport = Some p).
  { destruct (Z_lt_dec port 0) as [Hlt|Hge].
    - exists dp. exact (Hneg Hlt).
    - exists port. apply Hpos. lia. }
  destruct Hp as [p ->].
  destruct ip as [|c0 ip].
  - exists d, p. rewrite (He eq_refl). repeat split. exact Hd.
  - destruct (Hne ltac:(discriminate)) as (a & b & c & d' & _ & ->).
    exists [a; b; c; d'], p. repeat split.
Qed.

Lemma buildResponse_well_formed (cfg : Config) (l0 l1 l2 l3 : byte)
    (data : bytes) (addr : address) (msg : ResponseMessage) :
  buildResponse cfg [l0; l1; l2; l3] data addr = Ok msg ->
  Forall well_formed_attribute (attributes msg).
Proof.
  intros Hb.
  destruct (buildResponse_inv _ _ _ _ _ Hb)
    as (sp & mip & mport & mf & sip & sport & sf & cip & cport & cf
        & Hsp & Hm & Hs & Hc & ->).
  destruct (IPv4Address_packed_sound _ _ Hsp) as (a & b & c & d & _ & ->).
  destruct (resolve_present _ _ [a; b; c; d] _ _ _ _ eq_refl Hm) as (m4 & mp & -> & -> & Hm4).
  destruct (resolve_present _ _ [l0; l1; l2; l3] _ _ _ _ eq_refl Hs) as (s4 & sp' & -> & -> & Hs4).
  cbn [attributes].
  apply Forall_cons; [exact Hm4|]. apply Forall_cons; [exact Hs4|].
  apply Forall_app. split.
  - destruct cf; [|constructor].
    destruct (resolve_shape _ _ _ _ _ _ _ Hc) as (_ & Hne & _ & Hpos & Hflag).
    destruct (proj1 Hflag eq_refl) as [Hip Hport].
    destruct (Hne Hip) as (c0 & c1 & c2 & c3 & _ & ->).
    rewrite (Hpos Hport). constructor; [reflexivity | constructor].
  - constructor; [|constructor]. simpl. eexists. reflexivity.
Qed.

Lemma well_formed_exn (a : Attribute) (e : exn) :
  well_formed_attribute a ->
  Attribute_getBinary a = Raise e -> e = OverflowError.
Proof.
  intros Hw. unfold Attribute_getBinary.
  destruct (getAttributeValue a) as [v|e0] eqn:Ev; simpl.
  - destruct (UInt16ToBytes (attributeType_of a)) as [t|e1] eqn:Et; simpl;
      [|intros H; injection H as <-; exact (to_bytes_exn _ _ _ Et)].
    destruct (UInt16ToBytes (len v)) as [l|e1] eqn:El; simpl;
      [discriminate|].
    intros H; injection H as <-. exact (to_bytes_exn _ _ _ El).
  - intros H; injection H as <-.
    destruct a as [t [ip|] [p|]|t text]; simpl in Hw; try contradiction.
    + simpl in Ev. destruct (UInt16ToBytes p) as [pb|e1] eqn:Ep; simpl in Ev;
        [discriminate|].
      injection Ev as <-. exact (to_bytes_exn _ _ _ Ep).
    + destruct Hw as [b Hb]. simpl in Ev. rewrite Hb in Ev. discriminate.
Qed.

Lemma join_binaries_exn (attrs : list Attribute) (e : exn) :
  Forall well_formed_attribute attrs ->
  join_binaries attrs = Raise e -> e = OverflowError.
Proof.
  induction 1 as [|a attrs Ha _ IH]; simpl; [discriminate|].
  destruct (Attribute_getBinary a) as [b|e0] eqn:Ea; simpl.
  - destruct (join_binaries attrs) as [bs|e1]; simpl; [discriminate|].
    intros H; injection H as <-. apply IH; reflexivity.
  - intros H; injection H as <-. exact (well_formed_exn a e0 Ha Ea).
Qed.

(** X8: the only exceptions a Binding Request can set off are the
    address-format exception and the overflow exception; the absent
    defaults handed to the CHANGED-ADDRESS resolution never reach the
    serializer. *)
Theorem request_failures_are_of_two_kinds
    (cfg : Config) (l0 l1 l2 l3 : byte) (data : bytes) (addr : address)
    (e : exn) :
  respond cfg [l0; l1; l2; l3] data addr = Raise e ->
  e = AddressValueError \/ e = OverflowError.
Proof.
  unfold respond.
  destruct (buildResponse cfg [l0; l1; l2; l3] data addr) as [msg|e0] eqn:Eb;
    simpl.
  - intros H. right.
    pose proof (buildResponse_well_formed _ _ _ _ _ _ _ _ Eb) as Hw.
    unfold getBinary in H.
    destruct (join_binaries (attributes msg)) as [ab|e1] eqn:Ej; simpl in H.
    + destruct (UInt16ToBytes (messageType msg)) as [t|e1] eqn:Et; simpl in H;
        [|injection H as <-; exact (to_bytes_exn _ _ _ Et)].
      destruct (UInt16ToBytes (len ab)) as [l|e1] eqn:El; simpl in H;
        [discriminate|].
      injection H as <-. exact (to_bytes_exn _ _ _ El).
    + injection H as <-. exact (join_binaries_exn _ _ Hw Ej).
  - intros H. injection H as <-. left. exact (buildResponse_exn _ _ _ _ _ Eb).
Qed.

Lemma request_failures_are_of_two_kinds_witness :
  respond
    (fixed_mapping_config (str_of_string "0.0.0.0")
       (str_of_string "198.51.100.7") 70000)
    [x00; x00; x00; x00] zero_request (str_of_string "203.0.113.9", 54321)
  = Raise OverflowError
  /\ (OverflowError = AddressValueError \/ OverflowError = OverflowError).
Proof.
  split; [reflexivity|].
  apply (request_failures_are_of_two_kinds
           (fixed_mapping_config (str_of_string "0.0.0.0")
              (str_of_string "198.51.100.7") 70000)
           x00 x00 x00 x00 zero_request (str_of_string "203.0.113.9", 54321)).
  reflexivity.
Defined.

Lemma resolve_dotted_inv (a b c d : byte) (port : Z)
    (defaultIP : option bytes) (defaultPort : option Z)
    (rip : option bytes) (rport : option Z) (flag : bool) :
  getConfigurationIpAndPort (dotted a b c d) port defaultIP defaultPort
  = Ok (rip, rport, flag) ->
  rip = Some [a; b; c; d].
Proof.
  rewrite resolve_dotted. intros H. injection H as <- _ _. reflexivity.
Qed.




(** X10: a partial MAPPED-ADDRESS override is honoured for the part that is
    set.  The address is the configured one or else the sender's, the port
    is the configured one or else the sender's, each decided on its own. *)
Theorem mapped_address_is_resolved
    (cfg : Config) (lip data : bytes) (a b c d : byte) (port : Z)
    (msg : ResponseMessage) :
  buildResponse cfg lip data (dotted a b c d, port) = Ok msg ->
  exists ip p,
    find_attribute TYPE_MAPPED_ADDRESS msg
    = Some (IPv4AddressAndPortAttribute TYPE_MAPPED_ADDRESS (Some ip) (Some p))
    /\ (RESPONSE_MAPPED_IP cfg = [] -> ip = [a; b; c; d])
    /\ (forall m0 m1 m2 m3 : byte,
          RESPONSE_MAPPED_IP cfg = dotted m0 m1 m2 m3 -> ip = [m0; m1; m2; m3])
    /\ (RESPONSE_MAPPED_PORT cfg < 0 -> p = port)
    /\ (0 <= RESPONSE_MAPPED_PORT cfg -> p = RESPONSE_MAPPED_PORT cfg).
Proof.
  intros Hb.
  destruct (buildResponse_inv _ _ _ _ _ Hb)
    as (sp & mip & mport & mf & sip & sport & sf & cip & cport & cf
        & Hsp & Hm & _ & _ & ->).
  cbn [fst snd] in Hsp, Hm.
  rewrite IPv4Address_packed_dotted in Hsp. injection Hsp as <-.
  destruct (resolve_shape _ _ _ _ _ _ _ Hm) as (He & Hne & Hneg & Hpos & _).
  assert (Hip : exists ip, mip = Some ip).
  { destruct (RESPONSE_MAPPED_IP cfg) as [|c0 s0] eqn:E.
    - eexists. apply He. reflexivity.
    - destruct (Hne ltac:(discriminate)) as (m0 & m1 & m2 & m3 & _ & ->).
      eexists. reflexivity. }
  assert (Hport : exists p, mport = Some p).
  { destruct (Z_lt_dec (RESPONSE_MAPPED_PORT cfg) 0) as [Hlt|Hge].
    - eexists. exact (Hneg Hlt).
    - eexists. apply Hpos. lia. }
  destruct Hip as [ip ->]. destruct Hport as [p ->].
  exists ip, p. split; [apply find_mapped; reflexivity|].
  split; [|split; [|split]].
  - intros E. specialize (He E). congruence.
  - intros m0 m1 m2 m3 E. rewrite E in Hm.
    apply resolve_dotted_inv in Hm. congruence.
  - intros Hlt. specialize (Hneg Hlt). congruence.
  - intros Hge. specialize (Hpos Hge). congruence.
Qed.

Lemma mapped_address_is_resolved_witness :
  exists ip p,
    find_attribute TYPE_MAPPED_ADDRESS
      (mkResponseMessage BINDING_RESPONSE (repeat x00 16)
         [IPv4AddressAndPortAttribute TYPE_MAPPED_ADDRESS
            (Some [xc6; x33; x64; x07]) (Some 54321);
          IPv4AddressAndPortAttribute TYPE_SOURCE_ADDRESS
            (Some [x00; x00; x00; x00]) (Some 3478);
          TextAttribute TYPE_SERVER SERVER_TEXT])
    = Some (IPv4AddressAndPortAttribute TYPE_MAPPED_ADDRESS (Some ip) (Some p))
    /\ (str_of_string "198.51.100.7" = [] -> ip = [xcb; x00; x71; x09])
    /\ (forall m0 m1 m2 m3 : byte,
          str_of_string "198.51.100.7" = dotted m0 m1 m2 m3 ->
          ip = [m0; m1; m2; m3])
    /\ (-1 < 0 -> p = 54321)
    /\ (0 <= -1 -> p = -1).
Proof.
  apply (mapped_address_is_resolved
           (fixed_mapping_config (str_of_string "0.0.0.0")
              (str_of_string "198.51.100.7") (-1))
           [x00; x00; x00; x00] zero_request xcb x00 x71 x09 54321).
  reflexivity.
Defined.

Lemma response_layout_aux (cfg : Config) (lip data : bytes) (addr : address)
    (msg : ResponseMessage) :
  buildResponse cfg lip data addr = Ok msg ->
  (RESPONSE_CHANGED_IP cfg = [] \/ RESPONSE_CHANGED_PORT cfg < 0 ->
   length (attributes msg) = 3%nat)
  /\ (RESPONSE_CHANGED_IP cfg <> [] /\ 0 <= RESPONSE_CHANGED_PORT cfg ->
      length (attributes msg) = 4%nat).
Proof.
  intros Hb.
  destruct (buildResponse_inv _ _ _ _ _ Hb)
    as (sp & mip & mport & mf & sip & sport & sf & cip & cport & cf
        & _ & _ & _ & Hc & ->).
  destruct (resolve_shape _ _ _ _ _ _ _ Hc) as (_ & _ & _ & _ & Hflag).
  split.
  - intros Hpartial. destruct cf; [|reflexivity].
    destruct (proj1 Hflag eq_refl) as [Hip Hport].
    destruct Hpartial; [contradiction | lia].
  - intros Hboth. destruct cf; [reflexivity|].
    apply Hflag in Hboth. discriminate Hboth.
Qed.

(** X11: every response is a Binding Response whose attributes are, in
    this order, MAPPED-ADDRESS, SOURCE-ADDRESS, CHANGED-ADDRESS when both
    of its settings are configured, and SERVER; when CHANGED-ADDRESS is
    there it carries the configured address and port. *)
Theorem response_layout
    (cfg : Config) (lip data : bytes) (addr : address) (msg : ResponseMessage) :
  buildResponse cfg lip data addr = Ok msg ->
  messageType msg = BINDING_RESPONSE
  /\ (RESPONSE_CHANGED_IP cfg = [] \/ RESPONSE_CHANGED_PORT cfg < 0 ->
      map attributeType_of (attributes msg)
      = [TYPE_MAPPED_ADDRESS; TYPE_SOURCE_ADDRESS; TYPE_SERVER])
  /\ (RESPONSE_CHANGED_IP cfg <> [] /\ 0 <= RESPONSE_CHANGED_PORT cfg ->
      map attributeType_of (attributes msg)
      = [TYPE_MAPPED_ADDRESS; TYPE_SOURCE_ADDRESS;
         TYPE_CHANGED_ADDRESS; TYPE_SERVER]
      /\ exists c0 c1 c2 c3 : byte,
           RESPONSE_CHANGED_IP cfg = dotted c0 c1 c2 c3
           /\ find_attribute TYPE_CHANGED_ADDRESS msg
              = Some (IPv4AddressAndPortAttribute TYPE_CHANGED_ADDRESS
                        (Some [c0; c1; c2; c3])
                        (Some (RESPONSE_CHANGED_PORT cfg)))).
Proof.
  intros Hb.
  destruct (buildResponse_inv _ _ _ _ _ Hb)
    as (sp & mip & mport & mf & sip & sport & sf & cip & cport & cf
        & _ & _ & _ & Hc & ->).
  destruct (resolve_shape _ _ _ _ _ _ _ Hc) as (_ & Hne & _ & Hpos & Hflag).
  split; [reflexivity|]. split.
  - intros Hpartial. destruct cf; [|reflexivity].
    destruct (proj1 Hflag eq_refl) as [Hip Hport].
    destruct Hpartial; [contradiction | lia].
  - intros Hboth. destruct cf.
    + split; [reflexivity|].
      destruct Hboth as [Hip Hport].
      destruct (Hne Hip) as (c0 & c1 & c2 & c3 & E & ->).
      rewrite (Hpos Hport).
      exists c0, c1, c2, c3. split; [exact E | reflexivity].
    + apply Hflag in Hboth. discriminate Hboth.
Qed.

Lemma response_layout_witness :
  exists msg,
    buildResponse
      (mkConfig (str_of_string "0.0.0.0") 3478 [] (-1) [] (-1)
         (str_of_string "192.0.2.200") 3479)
      [x00; x00; x00; x00] zero_request
      (str_of_string "203.0.113.9", 54321) = Ok msg
    /\ messageType msg = BINDING_RESPONSE
    /\ (str_of_string "192.0.2.200" = [] \/ 3479 < 0 ->
        map attributeType_of (attributes msg)
        = [TYPE_MAPPED_ADDRESS; TYPE_SOURCE_ADDRESS; TYPE_SERVER])
    /\ (str_of_string "192.0.2.200" <> [] /\ 0 <= 3479 ->
        map attributeType_of (attributes msg)
        = [TYPE_MAPPED_ADDRESS; TYPE_SOURCE_ADDRESS;
           TYPE_CHANGED_ADDRESS; TYPE_SERVER]
        /\ exists c0 c1 c2 c3 : byte,
             str_of_string "192.0.2.200" = dotted c0 c1 c2 c3
             /\ find_attribute TYPE_CHANGED_ADDRESS msg
                = Some (IPv4AddressAndPortAttribute TYPE_CHANGED_ADDRESS
                          (Some [c0; c1; c2; c3]) (Some 3479))).
Proof.
  eexists. split; [reflexivity|].
  apply (response_layout
           (mkConfig (str_of_string "0.0.0.0") 3478 [] (-1) [] (-1)
              (str_of_string "192.0.2.200") 3479)
           [x00; x00; x00; x00] zero_request
           (str_of_string "203.0.113.9", 54321)).
  reflexivity.
Defined.

(** ** Failures while serving *)

Lemma serverLoop_raise (cfg : Config) (lip data : bytes) (addr : address)
    (later : list (bytes * address)) (events : list event) (e : exn) :
  (length data <= 1024)%nat ->
  handleDatagram cfg lip data addr = (events, Some e) ->
  serverLoop cfg lip ((data, addr) :: later) = (events, Some e).
Proof.
  intros Hl H. cbn [serverLoop recvfrom fst snd].
  rewrite firstn_all2 by exact Hl. rewrite H. reflexivity.
Qed.

(** X12: a MAPPED-ADDRESS port configured above 65535 is accepted by the
    resolution and only fails when the first Binding Request is answered:
    the request is logged, the overflow exception leaves the loop, nothing
    is sent, and the datagrams that follow are never looked at. *)
Theorem oversized_port_stops_the_server
    (cfg : Config) (lip data : bytes) (a b c d : byte) (port : Z)
    (later : list (bytes * address)) :
  ip_setting_ok (RESPONSE_MAPPED_IP cfg) ->
  ip_setting_ok (RESPONSE_SOURCE_IP cfg) ->
  ip_setting_ok (RESPONSE_CHANGED_IP cfg) ->
  65536 <= RESPONSE_MAPPED_PORT cfg ->
  slice 0 2 data = be16 1 ->
  (length data <= 1024)%nat ->
  handleDatagram cfg lip data (dotted a b c d, port)
  = ([Print RECEIVED_REQUEST], Some OverflowError)
  /\ serverLoop cfg lip ((data, (dotted a b c d, port)) :: later)
     = ([Print RECEIVED_REQUEST], Some OverflowError).
Proof.
  intros Hm Hs Hc Hbig Hreq Hlen.
  assert (Hh : handleDatagram cfg lip data (dotted a b c d, port)
               = ([Print RECEIVED_REQUEST], Some OverflowError)).
  { rewrite (handleDatagram_request _ _ _ _ Hreq).
    destruct (resolve_total (RESPONSE_MAPPED_IP cfg) (RESPONSE_MAPPED_PORT cfg)
                (Some [a; b; c; d]) (Some port) Hm)
      as (mip & mport & mf & Em).
    destruct (resolve_total (RESPONSE_SOURCE_IP cfg) (RESPONSE_SOURCE_PORT cfg)
                (Some lip) (Some (LISTEN_PORT cfg)) Hs)
      as (sip & sport & sf & Es).
    destruct (resolve_total (RESPONSE_CHANGED_IP cfg)
                (RESPONSE_CHANGED_PORT cfg) None None Hc)
      as (cip & cport & cf & Ec).
    unfold respond.
    rewrite (buildResponse_intro cfg lip data (dotted a b c d, port)
               [a; b; c; d] _ _ _ _ _ _ _ _ _
               (IPv4Address_packed_dotted a b c d) Em Es Ec).
    destruct (resolve_shape _ _ _ _ _ _ _ Em) as (_ & _ & _ & Hpos & _).
    rewrite (Hpos ltac:(lia)).
    assert (Hattr : Attribute_getBinary
                      (IPv4AddressAndPortAttribute TYPE_MAPPED_ADDRESS mip
                         (Some (RESPONSE_MAPPED_PORT cfg)))
                    = Raise OverflowError).
    { unfold Attribute_getBinary, getAttributeValue.
      change (UInt16ToBytes 1) with (Ok (be16 1)).
      rewrite (UInt16ToBytes_overflow (RESPONSE_MAPPED_PORT cfg)) by lia.
      reflexivity. }
    unfold bind at 1. unfold getBinary.
    cbn [attributes app join_binaries]. rewrite Hattr. reflexivity. }
  split; [exact Hh|]. apply serverLoop_raise; assumption.
Qed.

Lemma oversized_port_stops_the_server_witness :
  handleDatagram
    (fixed_mapping_config (str_of_string "0.0.0.0")
       (str_of_string "198.51.100.7") 70000)
    [x00; x00; x00; x00] zero_request (dotted xcb x00 x71 x09, 54321)
  = ([Print RECEIVED_REQUEST], Some OverflowError)
  /\ serverLoop
       (fixed_mapping_config (str_of_string "0.0.0.0")
          (str_of_string "198.51.100.7") 70000)
       [x00; x00; x00; x00]
       [(zero_request, (dotted xcb x00 x71 x09, 54321));
        (zero_request, (dotted xc0 x00 x02 x01, 1024))]
     = ([Print RECEIVED_REQUEST], Some OverflowError).
Proof.
  apply (oversized_port_stops_the_server
           (fixed_mapping_config (str_of_string "0.0.0.0")
              (str_of_string "198.51.100.7") 70000)
           [x00; x00; x00; x00] zero_request xcb x00 x71 x09 54321).
  - right. exists xc6, x33, x64, x07. reflexivity.
  - left. reflexivity.
  - left. reflexivity.
  - simpl. lia.
  - reflexivity.
  - simpl. lia.
Defined.




(** ** The loop as a whole *)






(** X15: the loop handles datagrams strictly one after another and stops
    at the first exception: a run over two batches is the run over the
    first, followed by the run over the second only when the first ended
    without an exception. *)
Theorem loop_stops_at_first_exception
    (cfg : Config) (lip : bytes) (first second : list (bytes * address)) :
  serverLoop cfg lip (first ++ second)
  = match serverLoop cfg lip first with
    | (events, Some e) => (events, Some e)
    | (events, None) =>
        (events ++ fst (serverLoop cfg lip second),
         snd (serverLoop cfg lip second))
    end.
Proof.
  induction first as [|[data addr] first IH].
  - simpl. destruct (serverLoop cfg lip second). reflexivity.
  - cbn [app serverLoop recvfrom fst snd].
    destruct (handleDatagram cfg lip (firstn 1024 data) addr)
      as [events [e|]]; [reflexivity|].
    rewrite IH.
    destruct (serverLoop cfg lip first) as [events' [e|]]; [reflexivity|].
    rewrite app_assoc. reflexivity.
Qed.

Lemma handleDatagram_reads (cfg : Config) (lip : bytes)
    (data1 data2 : bytes) (addr : address) :
  slice 0 2 data1 = slice 0 2 data2 ->
  slice 4 20 data1 = slice 4 20 data2 ->
  handleDatagram cfg lip data1 addr = handleDatagram cfg lip data2 addr.
Proof.
  intros H1 H2. unfold handleDatagram, respond, buildResponse.
  rewrite H1, H2. reflexivity.
Qed.

(** X16: of a datagram the server reads the bytes at offsets 0, 1 and 4 to
    19 and nothing else.  Two runs whose datagrams agree on those bytes
    and on their senders produce the same log, the same responses and the
    same outcome, whatever the length field, the attributes or the total
    length of the requests. *)
Theorem unread_bytes_do_not_matter
    (cfg : Config) (lip : bytes) (run1 run2 : list (bytes * address)) :
  Forall2 (fun d1 d2 =>
             slice 0 2 (fst d1) = slice 0 2 (fst d2)
             /\ slice 4 20 (fst d1) = slice 4 20 (fst d2)
             /\ snd d1 = snd d2) run1 run2 ->
  serverLoop cfg lip run1 = serverLoop cfg lip run2.
Proof.
  induction 1 as [|[data1 addr1] [data2 addr2] run1 run2 (H1 & H2 & H3) _ IH];
    [reflexivity|].
  cbn [fst snd] in H1, H2, H3. subst addr2.
  cbn [serverLoop recvfrom fst snd].
  rewrite (handleDatagram_reads cfg lip (firstn 1024 data1)
             (firstn 1024 data2) addr1)
    by (rewrite !slice_firstn by lia; assumption).
  rewrite IH. reflexivity.
Qed.

Lemma unread_bytes_do_not_matter_witness :
  serverLoop (shipped_config (str_of_string "0.0.0.0")) [x00; x00; x00; x00]
    [([x00; x01; x00; x00] ++ repeat xa5 16,
      (str_of_string "203.0.113.9", 54321))]
  = serverLoop (shipped_config (str_of_string "0.0.0.0")) [x00; x00; x00; x00]
      [([x00; x01; xff; xff] ++ repeat xa5 16 ++ repeat x77 40,
        (str_of_string "203.0.113.9", 54321))].
Proof.
  apply unread_bytes_do_not_matter.
  repeat constructor.
Defined.

(** ** Size of a response *)

Lemma address_binary_length (t : Z) (ip : bytes) (p : Z) (b : bytes) :
  length ip = 4%nat ->
  Attribute_getBinary (IPv4AddressAndPortAttribute t (Some ip) (Some p)) = Ok b ->
  length b = 12%nat.
Proof.
  intros Hip H.
  destruct (Attribute_getBinary_inv _ _ H) as (payload & Hv & _ & _ & ->).
  cbn [getAttributeValue] in Hv. bind_inv Hv. bind_inv Hv.
  injection Hv as <-.
  apply UInt16ToBytes_inv in E. destruct E as [_ ->].
  apply UInt16ToBytes_inv in E0. destruct E0 as [_ ->].
  rewrite !length_app, !be16_length, Hip. reflexivity.
Qed.

Lemma join_binaries_cons_inv (a : Attribute) (rest : list Attribute)
    (ab : bytes) :
  join_binaries (a :: rest) = Ok ab ->
  exists b bs,
    Attribute_getBinary a = Ok b /\ join_binaries rest = Ok bs /\ ab = b ++ bs.
Proof.
  cbn [join_binaries]. intros H. bind_inv H. bind_inv H. injection H as <-.
  exists v, v0. repeat split; assumption.
Qed.

Lemma response_attributes_length (cfg : Config) (l0 l1 l2 l3 : byte)
    (data : bytes) (addr : address) (msg : ResponseMessage) (ab : bytes) :
  buildResponse cfg [l0; l1; l2; l3] data addr = Ok msg ->
  join_binaries (attributes msg) = Ok ab ->
  length ab = (12 * (length (attributes msg) - 1) + 52)%nat.
Proof.
  intros Hb Hj.
  pose proof (buildResponse_well_formed _ _ _ _ _ _ _ _ Hb) as Hw.
  destruct (buildResponse_inv _ _ _ _ _ Hb)
    as (sp & mip & mport & mf & sip & sport & sf & cip & cport & cf
        & _ & _ & _ & _ & ->).
  cbn [attributes] in *.
  destruct cf; cbn [app] in *.
  - inversion Hw as [|? ? W1 Hw1]; subst.
    inversion Hw1 as [|? ? W2 Hw2]; subst.
    inversion Hw2 as [|? ? W3 _]; subst.
    destruct mip as [mip|], mport as [mport|]; try contradiction.
    destruct sip as [sip|], sport as [sport|]; try contradiction.
    destruct cip as [cip|], cport as [cport|]; try contradiction.
    apply join_binaries_cons_inv in Hj. destruct Hj as (b1 & r1 & B1 & Hj & ->).
    apply join_binaries_cons_inv in Hj. destruct Hj as (b2 & r2 & B2 & Hj & ->).
    apply join_binaries_cons_inv in Hj. destruct Hj as (b3 & r3 & B3 & Hj & ->).
    apply join_binaries_cons_inv in Hj. destruct Hj as (b4 & r4 & B4 & Hj & ->).
    injection Hj as <-.
    rewrite server_attribute_binary in B4. injection B4 as <-.
    apply (address_binary_length _ _ _ _ W1) in B1.
    apply (address_binary_length _ _ _ _ W2) in B2.
    apply (address_binary_length _ _ _ _ W3) in B3.
    rewrite !length_app, B1, B2, B3. reflexivity.
  - inversion Hw as [|? ? W1 Hw1]; subst.
    inversion Hw1 as [|? ? W2 _]; subst.
    destruct mip as [mip|], mport as [mport|]; try contradiction.
    destruct sip as [sip|], sport as [sport|]; try contradiction.
    apply join_binaries_cons_inv in Hj. destruct Hj as (b1 & r1 & B1 & Hj & ->).
    apply join_binaries_cons_inv in Hj. destruct Hj as (b2 & r2 & B2 & Hj & ->).
    apply join_binaries_cons_inv in Hj. destruct Hj as (b4 & r4 & B4 & Hj & ->).
    injection Hj as <-.
    rewrite server_attribute_binary in B4. injection B4 as <-.
    apply (address_binary_length _ _ _ _ W1) in B1.
    apply (address_binary_length _ _ _ _ W2) in B2.
    rewrite !length_app, B1, B2. reflexivity.
Qed.

(** X17: every answer to a Binding Request of at least 20 bytes has one of
    two sizes: 96 bytes, of which the length field announces 76, when
    CHANGED-ADDRESS is left out, and 108 bytes, of which it announces 88,
    when both CHANGED-ADDRESS settings are configured. *)
Theorem response_has_one_of_two_sizes
    (cfg : Config) (l0 l1 l2 l3 : byte) (data : bytes)
    (a b c d : byte) (port : Z) :
  config_ok cfg ->
  0 <= port < 65536 ->
  slice 0 2 data = be16 1 ->
  (20 <= length data)%nat ->
  exists payload,
    handleDatagram cfg [l0; l1; l2; l3] data (dotted a b c d, port)
    = ([Print RECEIVED_REQUEST; SendTo payload (dotted a b c d, port)], None)
    /\ (RESPONSE_CHANGED_IP cfg = [] \/ RESPONSE_CHANGED_PORT cfg < 0 ->
        length payload = 96%nat /\ from_bytes (slice 2 4 payload) = 76)
    /\ (RESPONSE_CHANGED_IP cfg <> [] /\ 0 <= RESPONSE_CHANGED_PORT cfg ->
        length payload = 108%nat /\ from_bytes (slice 2 4 payload) = 88).
Proof.
  intros Hcfg Hp Hreq Hlen.
  destruct (respond_ok cfg l0 l1 l2 l3 data a b c d port Hcfg Hp)
    as (msg & ab & Hb & Hj & Hr).
  pose proof (response_attributes_length _ _ _ _ _ _ _ _ _ Hb Hj) as Hab.
  assert (Htid : length (slice 4 20 data) = 16%nat)
    by (rewrite slice_length; lia).
  pose proof (response_layout_aux _ _ _ _ _ Hb) as (Hpartial & Hboth).
  eexists. split;
    [rewrite (handleDatagram_request _ _ _ _ Hreq), Hr; reflexivity|].
  destruct (two_fields [x01; x01] (be16 (len ab)) (slice 4 20 data ++ ab)
              eq_refl eq_refl) as (_ & Hfield & _).
  cbn [app] in Hfield |- *. rewrite Hfield. cbn [length].
  rewrite !length_app, Htid, be16_length.
  split.
  - intros H. rewrite (Hpartial H) in Hab. cbn in Hab.
    unfold len. rewrite Hab. split; reflexivity.
  - intros H. rewrite (Hboth H) in Hab. cbn in Hab.
    unfold len. rewrite Hab. split; reflexivity.
Qed.

Lemma response_has_one_of_two_sizes_witness :
  exists payload,
    handleDatagram (shipped_config (str_of_string "0.0.0.0"))
      [x00; x00; x00; x00] zero_request (dotted xcb x00 x71 x09, 54321)
    = ([Print RECEIVED_REQUEST;
        SendTo payload (dotted xcb x00 x71 x09, 54321)], None)
    /\ ([] = ([] : str) \/ -1 < 0 ->
        length payload = 96%nat /\ from_bytes (slice 2 4 payload) = 76)
    /\ ([] <> ([] : str) /\ 0 <= -1 ->
        length payload = 108%nat /\ from_bytes (slice 2 4 payload) = 88).
Proof.
  apply (response_has_one_of_two_sizes
           (shipped_config (str_of_string "0.0.0.0")) x00 x00 x00 x00
           zero_request xcb x00 x71 x09 54321).
  - constructor; simpl; first [lia | left; reflexivity].
  - lia.
  - reflexivity.
  - simpl. lia.
Defined.

(** ** Text attributes *)

Lemma utf8_char_exn (c : N) (e : exn) :
  utf8_char c = Raise e -> e = UnicodeEncodeError.
Proof.
  unfold utf8_char.
  repeat match goal with
         | |- context [if ?b then _ else _] => destruct b
         end; congruence.
Qed.

Lemma utf8_char_surrogate (c : N) :
  is_surrogate c = true -> utf8_char c = Raise UnicodeEncodeError.
Proof.
  unfold is_surrogate, utf8_char. intros H. rewrite H.
  apply andb_true_iff in H. destruct H as [H1 H2].
  apply N.leb_le in H1. apply N.leb_le in H2.
  destruct (N.ltb_spec c 128); [lia|].
  destruct (N.ltb_spec c 2048); [lia|].
  destruct (N.ltb_spec c 65536); [reflexivity | lia].
Qed.

Lemma encode_utf8_surrogate_raises (s : str) :
  Exists (fun c => is_surrogate c = true) s ->
  encode_utf8 s = Raise UnicodeEncodeError.
Proof.
  induction 1 as [c s Hc | c s _ IH]; cbn [encode_utf8].
  - rewrite (utf8_char_surrogate c Hc). reflexivity.
  - destruct (utf8_char c) as [b|e] eqn:E; simpl.
    + rewrite IH. reflexivity.
    + f_equal. exact (utf8_char_exn c e E).
Qed.

Lemma encode_utf8_ascii_text (s : str) :
  Forall (fun c => (c < 128)%N) s ->
  encode_utf8 s = Ok (map byte_of_N s).
Proof.
  induction 1 as [|c s Hc _ IH]; [reflexivity|].
  cbn [encode_utf8 map]. unfold utf8_char.
  destruct (N.ltb_spec c 128); [|lia]. simpl. rewrite IH. reflexivity.
Qed.

(** X18: a text attribute made of ASCII characters has as payload one byte
    per character followed by the terminating null byte, so its length
    field counts the terminator; a text that holds a lone surrogate cannot
    be serialized at all and raises the encoding exception. *)
Theorem text_attribute_payload (t : Z) (text : str) :
  (Forall (fun c => (c < 128)%N) text ->
   getAttributeValue (TextAttribute t text)
   = Ok (map byte_of_N text ++ [x00])
   /\ (0 <= t < 65536 -> len text + 1 < 65536 ->
       Attribute_getBinary (TextAttribute t text)
       = Ok (be16 t ++ be16 (len text + 1) ++ map byte_of_N text ++ [x00])))
  /\ (Exists (fun c => is_surrogate c = true) text ->
      Attribute_getBinary (TextAttribute t text) = Raise UnicodeEncodeError).
Proof.
  split.
  - intros Hascii.
    assert (Hv : getAttributeValue (TextAttribute t text)
                 = Ok (map byte_of_N text ++ [x00])).
    { cbn [getAttributeValue]. rewrite (encode_utf8_ascii_text _ Hascii).
      reflexivity. }
    split; [exact Hv|]. intros Ht Hl.
    assert (Hlen : len (map byte_of_N text ++ [x00]) = len text + 1).
    { rewrite len_app. unfold len. rewrite length_map. reflexivity. }
    rewrite (Attribute_getBinary_ok (TextAttribute t text) _ Ht Hv)
      by (rewrite Hlen; exact Hl).
    rewrite Hlen. reflexivity.
  - intros Hs. unfold Attribute_getBinary. cbn [getAttributeValue].
    rewrite (encode_utf8_surrogate_raises _ Hs). reflexivity.
Qed.

Lemma text_attribute_payload_witness :
  (getAttributeValue (TextAttribute TYPE_SERVER (str_of_string "ok"))
   = Ok [x6f; x6b; x00]
   /\ (0 <= TYPE_SERVER < 65536 -> len (str_of_string "ok") + 1 < 65536 ->
       Attribute_getBinary (TextAttribute TYPE_SERVER (str_of_string "ok"))
       = Ok [x80; x22; x00; x03; x6f; x6b; x00]))
  /\ Attribute_getBinary (TextAttribute TYPE_SERVER [0x6F; 0xDC00; 0x6B]%N)
     = Raise UnicodeEncodeError.
Proof.
  split.
  - apply (proj1 (text_attribute_payload TYPE_SERVER (str_of_string "ok"))).
    repeat constructor.
  - apply (proj2 (text_attribute_payload TYPE_SERVER [0x6F; 0xDC00; 0x6B]%N)).
    right. left. reflexivity.
Defined.
